(** * The cadet data-access layer ([src/lib/supabase.ts])

    The module is a set of [async] wrappers around a hosted backend: table
    queries built with the SDK's query builder, four authentication calls
    and one HTTP POST to a remote function.  Every wrapper awaits one
    backend answer and then either throws or returns.

    The embedding keeps that shape.  A wrapper is a finite tree of effects
    ([Prog]): it asks the backend, receives the answer, may write to the
    console, and ends by returning or throwing.  The backend itself is not
    part of the repository, so it enters as a handler: an arbitrary,
    possibly stateful, function from requests to answers.  Running a
    wrapper against a handler gives the trace of what it did, how the
    promise settled, the backend's final state and what the module's
    variables hold afterwards. *)

From Stdlib Require Import String List Bool Floats Sorted.
From ExtLib Require Import Structures.Monad Structures.MonadExc.
Import ListNotations.
Import MonadNotation.
Local Open Scope string_scope.
Local Open Scope monad_scope.

Set Implicit Arguments.
Set Warnings "-register-all".

#[local] Arguments String.append : simpl never.

(** ** JavaScript values *)

(** What the wrappers hold at run time: the TypeScript interfaces of the
    module ([Cadet], [Task], [Score], ...) are erased, and rows, payloads
    and error objects are plain values.  A number is an IEEE double.  An
    object is its list of own properties, in insertion order, each key
    once.
    [JNewError v] is the object built by [new Error(v)], and [JTypeError]
    the one the engine throws when a property of [null] or [undefined] is
    read. *)
Inductive JsValue : Type :=
| JUndefined
| JNull
| JBool (b : bool)
| JNum (x : float)
| JStr (s : string)
| JArr (items : list JsValue)
| JObj (properties : list (string * JsValue))
| JNewError (message : JsValue)
| JTypeError.

(** ToBoolean: [undefined], [null], [false], [0], [-0], [NaN] and the empty
    string are falsy, everything else (every object, every array) is
    truthy. *)
Definition truthy (v : JsValue) : bool :=
  match v with
  | JUndefined | JNull => false
  | JBool b => b
  | JNum x => negb (PrimFloat.eqb x 0%float || PrimFloat.is_nan x)
  | JStr s => negb (String.eqb s "")
  | JArr _ | JObj _ | JNewError _ | JTypeError => true
  end.

(** [a || b] *)
Definition or_else (a b : JsValue) : JsValue :=
  if truthy a then a else b.

Infix "|||" := or_else (at level 50, left associativity).

Fixpoint own_property (properties : list (string * JsValue)) (key : string)
  : JsValue :=
  match properties with
  | [] => JUndefined
  | (k, v) :: rest => if String.eqb k key then v else own_property rest key
  end.

(** [v.key], for the keys the module reads ([error], [cadet]) and the
    column names of a row: reading from [null] or [undefined] throws,
    an object answers with its own property, and no other value carries
    such a key. *)
Definition get_property (v : JsValue) (key : string) : option JsValue :=
  match v with
  | JUndefined | JNull => None
  | JObj properties => Some (own_property properties key)
  | _ => Some JUndefined
  end.

(** The same read where it cannot throw: a column of a row. *)
Definition column (row : JsValue) (name : string) : JsValue :=
  match get_property row name with
  | Some v => v
  | None => JUndefined
  end.

(** A settled promise. *)
Inductive Settled (A : Type) : Type :=
| Fulfilled (a : A)
| Rejected (reason : JsValue).

Arguments Fulfilled {A} a.
Arguments Rejected {A} reason.

(** ** The SDK as the module uses it *)

(** [import.meta.env] *)
Record ImportMetaEnv : Type := {
  VITE_SUPABASE_URL : string;
  VITE_SUPABASE_ANON_KEY : string
}.

Record SupabaseClient : Type := createClient {
  client_url : string;
  client_key : string
}.

(** What a table request does.  [ActInsert] and [ActUpsert] are the
    builder's other two writes; the module never calls them. *)
Inductive Action : Type :=
| ActNone
| ActSelect (columns : string)
| ActInsert (values : JsValue)
| ActUpsert (values : JsValue)
| ActUpdate (values : JsValue)
| ActDelete.

Record OrderOptions : Type := { ascending : bool }.

(** The state of a query builder when it is awaited. *)
Record PostgrestQuery : Type := {
  client : SupabaseClient;
  table : string;
  action : Action;
  returning : option string;
  filters : list (string * string);
  ordering : list (string * OrderOptions);
  is_single : bool
}.

Definition from (c : SupabaseClient) (relation : string) : PostgrestQuery :=
  {| client := c; table := relation; action := ActNone; returning := None;
     filters := []; ordering := []; is_single := false |}.

Definition with_action (a : Action) (q : PostgrestQuery) : PostgrestQuery :=
  {| client := client q; table := table q; action := a;
     returning := returning q; filters := filters q;
     ordering := ordering q; is_single := is_single q |}.

(** [.select(columns)]: on a fresh builder it makes the request a read; after
    a write it asks for the written rows back. *)
Definition select (columns : string) (q : PostgrestQuery) : PostgrestQuery :=
  match action q with
  | ActNone => with_action (ActSelect columns) q
  | _ =>
      {| client := client q; table := table q; action := action q;
         returning := Some columns; filters := filters q;
         ordering := ordering q; is_single := is_single q |}
  end.

Definition update (values : JsValue) (q : PostgrestQuery) : PostgrestQuery :=
  with_action (ActUpdate values) q.

Definition delete (q : PostgrestQuery) : PostgrestQuery :=
  with_action ActDelete q.

(** [.eq(column, value)] *)
Definition eq (col value : string) (q : PostgrestQuery) : PostgrestQuery :=
  {| client := client q; table := table q; action := action q;
     returning := returning q; filters := filters q ++ [(col, value)];
     ordering := ordering q; is_single := is_single q |}.

(** [.order(column, options)] *)
Definition order (col : string) (options : OrderOptions) (q : PostgrestQuery)
  : PostgrestQuery :=
  {| client := client q; table := table q; action := action q;
     returning := returning q; filters := filters q;
     ordering := ordering q ++ [(col, options)]; is_single := is_single q |}.

(** [.single()] *)
Definition single (q : PostgrestQuery) : PostgrestQuery :=
  {| client := client q; table := table q; action := action q;
     returning := returning q; filters := filters q;
     ordering := ordering q; is_single := true |}.

(** Method chaining: [b |> m x] is [b.m(x)]. *)
Notation "b |> m" := (m b) (at level 45, left associativity, only parsing).

Definition is_write (q : PostgrestQuery) : bool :=
  match action q with
  | ActInsert _ | ActUpsert _ | ActUpdate _ | ActDelete => true
  | ActNone | ActSelect _ => false
  end.

(** The [{ data, error }] pair every SDK call resolves to. *)
Record Result (D : Type) : Type := {
  data : D;
  error : JsValue
}.

Record Credentials : Type := { email : string; password : string }.

(** [supabase.auth.*] *)
Inductive AuthRequest : Type :=
| SignUp (credentials : Credentials)
| SignInWithPassword (credentials : Credentials)
| SignOut.

(** The [data] of [auth.getUser()], which the SDK types as an object with a
    [user] property whether or not the call failed. *)
Record UserData : Type := { user : JsValue }.

(** A JSON text, taken as the document it writes down: the value a reader
    of the text is handed.  [None] is [undefined], no text at all. *)
Definition JsonText : Type := option JsValue.

(** How [JSON.stringify] writes a number: [NaN] and the infinities as
    [null], negative zero as [0], any other number so that it reads back
    the same. *)
Definition JSON_number (x : float) : JsValue :=
  match PrimFloat.classify x with
  | NaN | PInf | NInf => JNull
  | NZero => JNum 0
  | PNormal | NNormal | PSubn | NSubn | PZero => JNum x
  end.

(** [JSON.stringify(v)]: [undefined] has no text; in an array it is written
    as [null], in an object the property is left out; an [Error] has no
    enumerable property and is written as the empty object. *)
Fixpoint JSON_stringify (v : JsValue) : JsonText :=
  match v with
  | JUndefined => None
  | JNull => Some JNull
  | JBool b => Some (JBool b)
  | JNum x => Some (JSON_number x)
  | JStr s => Some (JStr s)
  | JArr items =>
      Some (JArr (map (fun item => match JSON_stringify item with
                                   | Some document => document
                                   | None => JNull
                                   end) items))
  | JObj properties =>
      Some (JObj ((fix written (l : list (string * JsValue)) :=
                     match l with
                     | [] => []
                     | (k, x) :: rest =>
                         match JSON_stringify x with
                         | Some document => (k, document) :: written rest
                         | None => written rest
                         end
                     end) properties))
  | JNewError _ | JTypeError => Some (JObj [])
  end.

(** The values [JSON.stringify] writes down as they are. *)
Fixpoint json_faithful (v : JsValue) : bool :=
  match v with
  | JNull | JBool _ | JStr _ => true
  | JNum x =>
      match PrimFloat.classify x with
      | PNormal | NNormal | PSubn | NSubn | PZero => true
      | NZero | PInf | NInf | NaN => false
      end
  | JArr items => forallb json_faithful items
  | JObj properties => forallb (fun p => json_faithful (snd p)) properties
  | JUndefined | JNewError _ | JTypeError => false
  end.

(** Induction on a value, through the items of an array and the properties
    of an object. *)
Section JsValue_induction.

Variable P : JsValue -> Prop.

Hypothesis on_undefined : P JUndefined.
Hypothesis on_null : P JNull.
Hypothesis on_bool : forall b, P (JBool b).
Hypothesis on_num : forall x, P (JNum x).
Hypothesis on_str : forall s, P (JStr s).
Hypothesis on_arr : forall items, Forall P items -> P (JArr items).
Hypothesis on_obj :
  forall properties,
    Forall (fun p => P (snd p)) properties -> P (JObj properties).
Hypothesis on_new_error : forall message, P message -> P (JNewError message).
Hypothesis on_type_error : P JTypeError.

Fixpoint JsValue_induction (v : JsValue) : P v :=
  match v with
  | JUndefined => on_undefined
  | JNull => on_null
  | JBool b => on_bool b
  | JNum x => on_num x
  | JStr s => on_str s
  | JArr items =>
      on_arr
        ((fix all (l : list JsValue) : Forall P l :=
            match l with
            | [] => Forall_nil P
            | x :: rest => Forall_cons x (JsValue_induction x) (all rest)
            end) items)
  | JObj properties =>
      on_obj
        ((fix all (l : list (string * JsValue))
            : Forall (fun p => P (snd p)) l :=
            match l with
            | [] => Forall_nil _
            | p :: rest =>
                Forall_cons p (JsValue_induction (snd p)) (all rest)
            end) properties)
  | JNewError message => on_new_error (JsValue_induction message)
  | JTypeError => on_type_error
  end.

End JsValue_induction.

Record RequestInit : Type := {
  method : string;
  headers : list (string * string);
  body : JsonText
}.

(** A [fetch] response: the [ok] flag and what [response.json()] settles to
    (the body is read from the response at hand, not requested again). *)
Record Response : Type := {
  ok : bool;
  json : Settled JsValue
}.

(** ** Programs *)

Inductive Request : Type :=
| ReqPostgrest (q : PostgrestQuery)
| ReqAuth (c : SupabaseClient) (r : AuthRequest)
| ReqGetUser (c : SupabaseClient)
| ReqFetch (url : string) (init : RequestInit).

Inductive Answer : Type :=
| AnsPostgrest (r : Result JsValue)
| AnsAuth (r : Result JsValue)
| AnsGetUser (r : Result UserData)
| AnsFetch (r : Settled Response).

(** An [async] function body up to its first [await] of the backend, and
    what it does with each possible answer.  Besides talking to the backend
    and the console, a function of a module can keep values between calls
    in the module's own variables: [ReadBinding] and [WriteBinding] read
    and assign one.  (The module declares three, all [const], in lines
    3-6; whether a function keeps anything is a fact about its body.) *)
Inductive Prog (A : Type) : Type :=
| Ret (a : A)
| Throw (reason : JsValue)
| ConsoleError (label : string) (v : JsValue) (k : Prog A)
| ReadBinding (name : string) (k : JsValue -> Prog A)
| WriteBinding (name : string) (v : JsValue) (k : Prog A)
| Postgrest (q : PostgrestQuery) (k : Result JsValue -> Prog A)
| Auth (c : SupabaseClient) (r : AuthRequest) (k : Result JsValue -> Prog A)
| AuthGetUser (c : SupabaseClient) (k : Result UserData -> Prog A)
| Fetch (url : string) (init : RequestInit) (k : Settled Response -> Prog A).

Arguments Ret {A} a.
Arguments Throw {A} reason.
Arguments ConsoleError {A} label v k.
Arguments ReadBinding {A} name k.
Arguments WriteBinding {A} name v k.
Arguments Postgrest {A} q k.
Arguments Auth {A} c r k.
Arguments AuthGetUser {A} c k.
Arguments Fetch {A} url init k.

Fixpoint bind_prog {A B : Type} (p : Prog A) (f : A -> Prog B) : Prog B :=
  match p with
  | Ret a => f a
  | Throw reason => Throw reason
  | ConsoleError label v k => ConsoleError label v (bind_prog k f)
  | ReadBinding name k => ReadBinding name (fun v => bind_prog (k v) f)
  | WriteBinding name v k => WriteBinding name v (bind_prog k f)
  | Postgrest q k => Postgrest q (fun r => bind_prog (k r) f)
  | Auth c r k => Auth c r (fun a => bind_prog (k a) f)
  | AuthGetUser c k => AuthGetUser c (fun a => bind_prog (k a) f)
  | Fetch url init k => Fetch url init (fun a => bind_prog (k a) f)
  end.

(** [try p catch (e) handler]; the module has no such block, the instance
    below needs it. *)
Fixpoint catch_prog {A : Type} (p : Prog A) (handler : JsValue -> Prog A)
  : Prog A :=
  match p with
  | Ret a => Ret a
  | Throw reason => handler reason
  | ConsoleError label v k => ConsoleError label v (catch_prog k handler)
  | ReadBinding name k => ReadBinding name (fun v => catch_prog (k v) handler)
  | WriteBinding name v k => WriteBinding name v (catch_prog k handler)
  | Postgrest q k => Postgrest q (fun r => catch_prog (k r) handler)
  | Auth c r k => Auth c r (fun a => catch_prog (k a) handler)
  | AuthGetUser c k => AuthGetUser c (fun a => catch_prog (k a) handler)
  | Fetch url init k => Fetch url init (fun a => catch_prog (k a) handler)
  end.

#[export] Instance Monad_Prog : Monad Prog :=
  {| ret := @Ret; bind := @bind_prog |}.

#[export] Instance Exception_Prog : MonadExc JsValue Prog :=
  {| raise := @Throw; catch := @catch_prog |}.

(** [await] of a promise that is already settled. *)
Definition await {A : Type} (p : Settled A) : Prog A :=
  match p with
  | Fulfilled a => ret a
  | Rejected reason => raise reason
  end.

(** [await] of a query builder. *)
Definition await_query (q : PostgrestQuery) : Prog (Result JsValue) :=
  Postgrest q (fun r => ret r).

Definition auth_call (c : SupabaseClient) (r : AuthRequest)
  : Prog (Result JsValue) :=
  Auth c r (fun a => ret a).

Definition auth_getUser (c : SupabaseClient) : Prog (Result UserData) :=
  AuthGetUser c (fun a => ret a).

(** [await fetch(url, init)]: a network failure rejects. *)
Definition fetch (url : string) (init : RequestInit) : Prog Response :=
  Fetch url init (fun r => await r).

Definition console_error (label : string) (v : JsValue) : Prog unit :=
  ConsoleError label v (ret tt).

Definition read_binding (name : string) : Prog JsValue :=
  ReadBinding name (fun v => ret v).

Definition write_binding (name : string) (v : JsValue) : Prog unit :=
  WriteBinding name v (ret tt).

(** [o.key] inside a function body. *)
Definition read (o : JsValue) (key : string) : Prog JsValue :=
  match get_property o key with
  | Some v => ret v
  | None => raise JTypeError
  end.

(** ** The module *)

Section Client.

Variable env : ImportMetaEnv.

Definition supabaseUrl : string := VITE_SUPABASE_URL env.
Definition supabaseAnonKey : string := VITE_SUPABASE_ANON_KEY env.

Definition supabase : SupabaseClient := createClient supabaseUrl supabaseAnonKey.

Definition descending : OrderOptions := {| ascending := false |}.

Definition getCadets : Prog JsValue :=
  r <- await_query (from supabase "cadets"
                      |> select "*"
                      |> order "total_score" descending) ;;
  if truthy (error r) then
    console_error "Error fetching cadets:" (error r) ;;
    raise (error r)
  else ret (data r ||| JArr []).

Definition getTasks : Prog JsValue :=
  r <- await_query (from supabase "tasks"
                      |> select "*"
                      |> eq "status" "active"
                      |> order "created_at" descending) ;;
  if truthy (error r) then
    console_error "Error fetching tasks:" (error r) ;;
    raise (error r)
  else ret (data r ||| JArr []).

Definition getNews : Prog JsValue :=
  r <- await_query (from supabase "news"
                      |> select "*"
                      |> order "created_at" descending) ;;
  if truthy (error r) then
    console_error "Error fetching news:" (error r) ;;
    raise (error r)
  else ret (data r ||| JArr []).

Definition getAchievements : Prog JsValue :=
  r <- await_query (from supabase "achievements"
                      |> select "*"
                      |> order "created_at" descending) ;;
  if truthy (error r) then
    console_error "Error fetching achievements:" (error r) ;;
    raise (error r)
  else ret (data r ||| JArr []).

Definition getAutoAchievements : Prog JsValue :=
  r <- await_query (from supabase "auto_achievements"
                      |> select "*"
                      |> order "created_at" descending) ;;
  if truthy (error r) then
    console_error "Error fetching auto achievements:" (error r) ;;
    raise (error r)
  else ret (data r ||| JArr []).

Definition getCadetAchievements (cadetId : string) : Prog JsValue :=
  r <- await_query (from supabase "cadet_achievements"
                      |> select "
      *,
      achievement:achievements(*),
      auto_achievement:auto_achievements(*)
    "
                      |> eq "cadet_id" cadetId
                      |> order "awarded_date" descending) ;;
  if truthy (error r) then
    console_error "Error fetching cadet achievements:" (error r) ;;
    raise (error r)
  else ret (data r ||| JArr []).

Definition getCadetScores (cadetId : string) : Prog JsValue :=
  r <- await_query (from supabase "scores"
                      |> select "*"
                      |> eq "cadet_id" cadetId
                      |> single) ;;
  if truthy (error r) then
    console_error "Error fetching cadet scores:" (error r) ;;
    raise (error r)
  else ret (data r).

Definition getScoreHistory (cadetId : string) : Prog JsValue :=
  r <- await_query (from supabase "score_history"
                      |> select "*"
                      |> eq "cadet_id" cadetId
                      |> order "created_at" descending) ;;
  if truthy (error r) then
    console_error "Error fetching score history:" (error r) ;;
    raise (error r)
  else ret (data r ||| JArr []).

(** [cadetData] is declared as an object with [name], [email], [password],
    [platoon], [squad] and an optional [avatar_url]. *)
Definition addCadetByAdmin (cadetData : JsValue) : Prog JsValue :=
  response <- fetch (supabaseUrl ++ "/functions/v1/create-cadet")
                {| method := "POST";
                   headers := [("Content-Type", "application/json");
                               ("Authorization", "Bearer " ++ supabaseAnonKey)];
                   body := JSON_stringify cadetData |} ;;
  if negb (ok response) then
    errorData <- await (json response) ;;
    message <- read errorData "error" ;;
    raise (JNewError (message ||| JStr "Failed to create cadet"))
  else
    result <- await (json response) ;;
    read result "cadet".

(** [cadetData] is declared as [Partial<Cadet>]. *)
Definition updateCadetByAdmin (id : string) (cadetData : JsValue)
  : Prog JsValue :=
  r <- await_query (from supabase "cadets"
                      |> update cadetData
                      |> eq "id" id
                      |> select "*"
                      |> single) ;;
  if truthy (error r) then
    console_error "Error updating cadet:" (error r) ;;
    raise (error r)
  else ret (data r).

Definition deleteCadet (id : string) : Prog JsValue :=
  r <- await_query (from supabase "cadets"
                      |> delete
                      |> eq "id" id) ;;
  if truthy (error r) then
    console_error "Error deleting cadet:" (error r) ;;
    raise (error r)
  else ret JUndefined.

Definition getCadetById (id : string) : Prog JsValue :=
  r <- await_query (from supabase "cadets"
                      |> select "*"
                      |> eq "id" id
                      |> single) ;;
  if truthy (error r) then
    console_error "Error fetching cadet:" (error r) ;;
    raise (error r)
  else ret (data r).

Definition signUp (email password : string) : Prog JsValue :=
  r <- auth_call supabase
         (SignUp {| email := email; password := password |}) ;;
  if truthy (error r) then
    console_error "Error signing up:" (error r) ;;
    raise (error r)
  else ret (data r).

Definition signIn (email password : string) : Prog JsValue :=
  r <- auth_call supabase
         (SignInWithPassword {| email := email; password := password |}) ;;
  if truthy (error r) then
    console_error "Error signing in:" (error r) ;;
    raise (error r)
  else ret (data r).

Definition signOut : Prog JsValue :=
  r <- auth_call supabase SignOut ;;
  if truthy (error r) then
    console_error "Error signing out:" (error r) ;;
    raise (error r)
  else ret JUndefined.

Definition getCurrentUser : Prog JsValue :=
  r <- auth_getUser supabase ;;
  if truthy (error r) then
    console_error "Error getting current user:" (error r) ;;
    raise (error r)
  else ret (user (data r)).

(** A call of one of the sixteen exported functions. *)
Inductive Call : Type :=
| CallGetCadets
| CallGetTasks
| CallGetNews
| CallGetAchievements
| CallGetAutoAchievements
| CallGetCadetAchievements (cadetId : string)
| CallGetCadetScores (cadetId : string)
| CallGetScoreHistory (cadetId : string)
| CallAddCadetByAdmin (cadetData : JsValue)
| CallUpdateCadetByAdmin (id : string) (cadetData : JsValue)
| CallDeleteCadet (id : string)
| CallGetCadetById (id : string)
| CallSignUp (email password : string)
| CallSignIn (email password : string)
| CallSignOut
| CallGetCurrentUser.

Definition exported (c : Call) : Prog JsValue :=
  match c with
  | CallGetCadets => getCadets
  | CallGetTasks => getTasks
  | CallGetNews => getNews
  | CallGetAchievements => getAchievements
  | CallGetAutoAchievements => getAutoAchievements
  | CallGetCadetAchievements cadetId => getCadetAchievements cadetId
  | CallGetCadetScores cadetId => getCadetScores cadetId
  | CallGetScoreHistory cadetId => getScoreHistory cadetId
  | CallAddCadetByAdmin cadetData => addCadetByAdmin cadetData
  | CallUpdateCadetByAdmin id cadetData => updateCadetByAdmin id cadetData
  | CallDeleteCadet id => deleteCadet id
  | CallGetCadetById id => getCadetById id
  | CallSignUp email password => signUp email password
  | CallSignIn email password => signIn email password
  | CallSignOut => signOut
  | CallGetCurrentUser => getCurrentUser
  end.

End Client.

(** ** Running a program against a backend *)

(** The backend: what it answers to each kind of request, from a state of
    its own ([W]) that a request may change. *)
Record Handler (W : Type) : Type := {
  on_postgrest : PostgrestQuery -> W -> Result JsValue * W;
  on_auth : SupabaseClient -> AuthRequest -> W -> Result JsValue * W;
  on_getUser : SupabaseClient -> W -> Result UserData * W;
  on_fetch : string -> RequestInit -> W -> Settled Response * W
}.

Inductive Event : Type :=
| EvRequest (r : Request)
| EvAnswer (a : Answer)
| EvConsoleError (label : string) (v : JsValue).

(** The module's variables and what they hold. *)
Definition Bindings : Type := list (string * JsValue).

Definition assign_binding (m : Bindings) (name : string) (v : JsValue)
  : Bindings :=
  (name, v) :: filter (fun b => negb (String.eqb (fst b) name)) m.

(** What a run did, how its promise settled, the state it left the backend
    in and what it left in the module's variables. *)
Record Run (W A : Type) : Type := {
  trace : list Event;
  outcome : Settled A;
  final : W;
  kept : Bindings
}.

Definition exchange {W A : Type} (r : Request) (a : Answer) (rest : Run W A)
  : Run W A :=
  {| trace := EvRequest r :: EvAnswer a :: trace rest;
     outcome := outcome rest;
     final := final rest;
     kept := kept rest |}.

(** A run that finds [m] in the module's variables. *)
Fixpoint run_with {W A : Type} (h : Handler W) (p : Prog A) (m : Bindings)
  (w : W) : Run W A :=
  match p with
  | Ret a => {| trace := []; outcome := Fulfilled a; final := w; kept := m |}
  | Throw reason =>
      {| trace := []; outcome := Rejected reason; final := w; kept := m |}
  | ConsoleError label v k =>
      let rest := run_with h k m w in
      {| trace := EvConsoleError label v :: trace rest;
         outcome := outcome rest;
         final := final rest;
         kept := kept rest |}
  | ReadBinding name k => run_with h (k (own_property m name)) m w
  | WriteBinding name v k => run_with h k (assign_binding m name v) w
  | Postgrest q k =>
      let (a, w') := on_postgrest h q w in
      exchange (ReqPostgrest q) (AnsPostgrest a) (run_with h (k a) m w')
  | Auth c r k =>
      let (a, w') := on_auth h c r w in
      exchange (ReqAuth c r) (AnsAuth a) (run_with h (k a) m w')
  | AuthGetUser c k =>
      let (a, w') := on_getUser h c w in
      exchange (ReqGetUser c) (AnsGetUser a) (run_with h (k a) m w')
  | Fetch url init k =>
      let (a, w') := on_fetch h url init w in
      exchange (ReqFetch url init) (AnsFetch a) (run_with h (k a) m w')
  end.

(** A run of a freshly loaded module. *)
Definition run {W A : Type} (h : Handler W) (p : Prog A) (w : W) : Run W A :=
  run_with h p [] w.

Arguments run {W A} h p w /.

Fixpoint requests (t : list Event) : list Request :=
  match t with
  | [] => []
  | EvRequest r :: rest => r :: requests rest
  | _ :: rest => requests rest
  end.

Fixpoint answers (t : list Event) : list Answer :=
  match t with
  | [] => []
  | EvAnswer a :: rest => a :: answers rest
  | _ :: rest => answers rest
  end.

Fixpoint logged (t : list Event) : list (string * JsValue) :=
  match t with
  | [] => []
  | EvConsoleError label v :: rest => (label, v) :: logged rest
  | _ :: rest => logged rest
  end.

(** The answer the backend gives to a request in state [w]. *)
Definition answer_to {W : Type} (h : Handler W) (r : Request) (w : W) : Answer :=
  match r with
  | ReqPostgrest q => AnsPostgrest (fst (on_postgrest h q w))
  | ReqAuth c a => AnsAuth (fst (on_auth h c a w))
  | ReqGetUser c => AnsGetUser (fst (on_getUser h c w))
  | ReqFetch url init => AnsFetch (fst (on_fetch h url init w))
  end.

(** The error an answer reports, if it reports one: a truthy [error] of an
    SDK result, the rejection of a [fetch], or, for a response that is not
    [ok], what its body says. *)
Definition reported_error (a : Answer) : option JsValue :=
  match a with
  | AnsPostgrest r | AnsAuth r =>
      if truthy (error r) then Some (error r) else None
  | AnsGetUser r =>
      if truthy (error r) then Some (error r) else None
  | AnsFetch (Rejected reason) => Some reason
  | AnsFetch (Fulfilled response) =>
      if ok response then None
      else match json response with
           | Fulfilled errorData => Some errorData
           | Rejected reason => Some reason
           end
  end.

(** What a request hands over: the values of an SDK call's parameters, and
    for the POST the document its body writes down. *)
Definition payload (r : Request) : list JsValue :=
  match r with
  | ReqPostgrest q =>
      map (fun f => JStr (snd f)) (filters q) ++
      match action q with
      | ActInsert values | ActUpsert values | ActUpdate values => [values]
      | ActNone | ActSelect _ | ActDelete => []
      end
  | ReqAuth _ (SignUp credentials)
  | ReqAuth _ (SignInWithPassword credentials) =>
      [JStr (email credentials); JStr (password credentials)]
  | ReqAuth _ SignOut => []
  | ReqGetUser _ => []
  | ReqFetch _ init =>
      match body init with
      | Some document => [document]
      | None => []
      end
  end.

(** ** What the backend promises about table reads *)

(** [row] passes every [.eq(column, value)] filter of the request. *)
Definition row_matches (conditions : list (string * string)) (row : JsValue)
  : bool :=
  forallb (fun c => match column row (fst c) with
                    | JStr s => String.eqb s (snd c)
                    | _ => false
                    end) conditions.

Definition rows_of (v : JsValue) : list JsValue :=
  match v with
  | JArr rows => rows
  | JUndefined | JNull => []
  | row => [row]
  end.

(** Every row of a successful answer passes the request's filters. *)
Definition meets_filters (q : PostgrestQuery) (r : Result JsValue) : bool :=
  truthy (error r) || forallb (row_matches (filters q)) (rows_of (data r)).

(** Row [a] may come before row [b] under the request's [.order] clauses;
    [le] is the backend's order on column values. *)
Fixpoint may_precede (le : JsValue -> JsValue -> bool)
  (keys : list (string * OrderOptions)) (a b : JsValue) : bool :=
  match keys with
  | [] => true
  | (col, options) :: rest =>
      let x := column (if ascending options then a else b) col in
      let y := column (if ascending options then b else a) col in
      le x y && (negb (le y x) || may_precede le rest a b)
  end.

Fixpoint sortedb {A : Type} (r : A -> A -> bool) (l : list A) : bool :=
  match l with
  | [] => true
  | a :: rest =>
      match rest with
      | [] => true
      | b :: _ => r a b && sortedb r rest
      end
  end.

(** The rows of a successful answer come in the requested order. *)
Definition in_order (le : JsValue -> JsValue -> bool) (q : PostgrestQuery)
  (r : Result JsValue) : bool :=
  truthy (error r) || sortedb (may_precede le (ordering q)) (rows_of (data r)).

(** A [.single()] request is answered by an error or by one row object. *)
Definition single_shape (r : Result JsValue) : bool :=
  truthy (error r) || match data r with JObj _ => true | _ => false end.

(** ** The [Score] interface *)

Record Score : Type := {
  id : string;
  cadet_id : string;
  study_score : float;
  discipline_score : float;
  events_score : float;
  created_at : option string;
  updated_at : option string
}.

Definition optional (key : string) (v : option string)
  : list (string * JsValue) :=
  match v with
  | Some s => [(key, JStr s)]
  | None => []
  end.

Definition Score_properties (s : Score) : list (string * JsValue) :=
  [("id", JStr (id s));
   ("cadet_id", JStr (cadet_id s));
   ("study_score", JNum (study_score s));
   ("discipline_score", JNum (discipline_score s));
   ("events_score", JNum (events_score s))]
  ++ optional "created_at" (created_at s)
  ++ optional "updated_at" (updated_at s).

(** The object a [Score] is at run time. *)
Definition Score_row (s : Score) : JsValue :=
  JObj (Score_properties s).

(** ** Two backends to run against *)

(** A backend that answers from a script, whatever it is asked, and counts
    the requests it served. *)
Record Script : Type := {
  says_postgrest : Result JsValue;
  says_auth : Result JsValue;
  says_getUser : Result UserData;
  says_fetch : Settled Response
}.

Definition scripted (s : Script) : Handler nat :=
  {| on_postgrest := fun _ n => (says_postgrest s, S n);
     on_auth := fun _ _ n => (says_auth s, S n);
     on_getUser := fun _ n => (says_getUser s, S n);
     on_fetch := fun _ _ n => (says_fetch s, S n) |}.

(** A table store that reads, updates and deletes rows the way the hosted
    service documents it: [.eq] keeps the rows whose column is that text,
    [.order] sorts, [.single()] answers with the row when exactly one is
    left and with an error otherwise.  It stands in for the service where a
    property is tried on data; it serves no authentication and no remote
    function. *)
Module Store.

Definition Row : Type := list (string * JsValue).
Definition Database : Type := list (string * list Row).

Fixpoint stored (db : Database) (relation : string) : list Row :=
  match db with
  | [] => []
  | (name, rows) :: rest =>
      if String.eqb name relation then rows else stored rest relation
  end.

Fixpoint replace (db : Database) (relation : string) (rows : list Row)
  : Database :=
  match db with
  | [] => [(relation, rows)]
  | (name, old) :: rest =>
      if String.eqb name relation then (name, rows) :: rest
      else (name, old) :: replace rest relation rows
  end.

Definition value_le (a b : JsValue) : bool :=
  match a, b with
  | JStr x, JStr y => String.leb x y
  | JNum x, JNum y => PrimFloat.leb x y
  | _, _ => true
  end.

Definition before (keys : list (string * OrderOptions)) (a b : Row) : bool :=
  may_precede value_le keys (JObj a) (JObj b).

Fixpoint insert_sorted (keys : list (string * OrderOptions)) (r : Row)
  (sorted : list Row) : list Row :=
  match sorted with
  | [] => [r]
  | x :: rest =>
      if before keys r x then r :: sorted
      else x :: insert_sorted keys r rest
  end.

Definition sort_rows (keys : list (string * OrderOptions)) (rows : list Row)
  : list Row :=
  fold_right (insert_sorted keys) [] rows.

Definition matching (q : PostgrestQuery) (rows : list Row) : list Row :=
  filter (fun r => row_matches (filters q) (JObj r)) rows.

Fixpoint assign (target changes : Row) : Row :=
  match changes with
  | [] => target
  | (k, v) :: rest =>
      assign (if existsb (fun p => String.eqb (fst p) k) target
              then map (fun p => if String.eqb (fst p) k then (k, v) else p)
                       target
              else (target ++ [(k, v)])%list) rest
  end.

Definition failure (code message : string) : JsValue :=
  JObj [("code", JStr code); ("message", JStr message)].

Definition no_single_row : JsValue :=
  failure "PGRST116" "JSON object requested, multiple (or no) rows returned".

Definition respond (q : PostgrestQuery) (rows : list Row) : Result JsValue :=
  if is_single q then
    match rows with
    | [row] => {| data := JObj row; error := JNull |}
    | _ => {| data := JNull; error := no_single_row |}
    end
  else {| data := JArr (map JObj rows); error := JNull |}.

Definition written (q : PostgrestQuery) (rows : list Row) : Result JsValue :=
  match returning q with
  | Some _ => respond q (sort_rows (ordering q) rows)
  | None => {| data := JNull; error := JNull |}
  end.

Definition serve (q : PostgrestQuery) (db : Database)
  : Result JsValue * Database :=
  let rows := stored db (table q) in
  match action q with
  | ActSelect _ => (respond q (sort_rows (ordering q) (matching q rows)), db)
  | ActUpdate (JObj changes) =>
      let hit r := row_matches (filters q) (JObj r) in
      (written q (map (fun r => assign r changes) (matching q rows)),
       replace db (table q)
         (map (fun r => if hit r then assign r changes else r) rows))
  | ActDelete =>
      let hit r := row_matches (filters q) (JObj r) in
      (written q (matching q rows),
       replace db (table q) (filter (fun r => negb (hit r)) rows))
  | _ =>
      ({| data := JNull;
          error := failure "PGRST102" "request not served by this store" |},
       db)
  end.

Definition unreachable : JsValue :=
  JNewError (JStr "service not available").

Definition handler : Handler Database :=
  {| on_postgrest := serve;
     on_auth := fun _ _ db => ({| data := JNull; error := unreachable |}, db);
     on_getUser := fun _ db =>
       ({| data := {| user := JNull |}; error := unreachable |}, db);
     on_fetch := fun _ _ db => (Rejected unreachable, db) |}.

End Store.

(** Data to run the module on. *)
Module Sample.

Definition env : ImportMetaEnv :=
  {| VITE_SUPABASE_URL := "https://cadets.supabase.co";
     VITE_SUPABASE_ANON_KEY := "anon-key" |}.

Definition cadet (id name mail platoon : string) (squad total : float)
  : Store.Row :=
  [("id", JStr id); ("name", JStr name); ("email", JStr mail);
   ("platoon", JStr platoon); ("squad", JNum squad);
   ("total_score", JNum total)].

Definition task (id title status created : string) (points : float)
  : Store.Row :=
  [("id", JStr id); ("title", JStr title); ("status", JStr status);
   ("points", JNum points); ("created_at", JStr created)].

Definition entry (id cadet category created : string) (points : float)
  : Store.Row :=
  [("id", JStr id); ("cadet_id", JStr cadet); ("category", JStr category);
   ("points", JNum points); ("created_at", JStr created)].

Definition score_c1 : Score :=
  {| id := "s1"; cadet_id := "c1";
     study_score := 40; discipline_score := 35; events_score := 45;
     created_at := Some "2024-01-05T08:00:00Z"; updated_at := None |}.

Definition c1 : Store.Row := cadet "c1" "Ivanov" "ivanov@example.org" "10-1" 1 120.
Definition c2 : Store.Row := cadet "c2" "Petrov" "petrov@example.org" "10-2" 2 150.

Definition t1 : Store.Row := task "t1" "Essay" "active" "2024-01-10T09:00:00Z" 10.
Definition t2 : Store.Row := task "t2" "Drill" "inactive" "2024-02-01T09:00:00Z" 5.
Definition t3 : Store.Row := task "t3" "Parade" "active" "2024-03-05T09:00:00Z" 20.

Definition e1 : Store.Row := entry "h1" "c1" "study" "2024-01-11T10:00:00Z" 10.
Definition e2 : Store.Row := entry "h2" "c2" "events" "2024-01-12T10:00:00Z" 15.
Definition e3 : Store.Row := entry "h3" "c1" "discipline" "2024-02-02T10:00:00Z" 5.

Definition db : Store.Database :=
  [("cadets", [c1; c2]);
   ("tasks", [t1; t2; t3]);
   ("scores", [Score_properties score_c1]);
   ("score_history", [e1; e2; e3]);
   ("news", [])].

(** The argument of an [addCadetByAdmin] call. *)
Definition newcomer : JsValue :=
  JObj [("name", JStr "Sidorov"); ("email", JStr "sidorov@example.org");
        ("password", JStr "secret"); ("platoon", JStr "10-1");
        ("squad", JNum 3)].

(** A backend whose gateway turns the POST down: the response is not [ok]
    and its body has a [message] and no [error]. *)
Definition turned_down : Response :=
  {| ok := false;
     json := Fulfilled (JObj [("code", JNum 401);
                              ("message", JStr "Invalid JWT")]) |}.

(** A backend that reports success and sends no data. *)
Definition nothing : Result JsValue := {| data := JNull; error := JNull |}.

Definition script (table_answer : Result JsValue)
  (fetch_answer : Settled Response) : Script :=
  {| says_postgrest := table_answer;
     says_auth := nothing;
     says_getUser := {| data := {| user := JNull |}; error := JNull |};
     says_fetch := fetch_answer |}.

End Sample.

(** More data: the achievements of a cadet and the remote function's
    answers. *)
Module Awards.

Definition award (id cadet awarded : string) (badge : JsValue) : JsValue :=
  JObj [("id", JStr id); ("cadet_id", JStr cadet);
        ("awarded_date", JStr awarded); ("achievement", badge);
        ("auto_achievement", JNull)].

Definition badge (title : string) : JsValue :=
  JObj [("id", JStr "b1"); ("title", JStr title);
        ("category", JStr "study")].

Definition a2 : JsValue := award "a2" "c1" "2024-04-01" (badge "Top of class").
Definition a1 : JsValue := award "a1" "c1" "2024-02-01" (badge "First essay").

Definition of_c1 : Result JsValue :=
  {| data := JArr [a2; a1]; error := JNull |}.

(** The remote function created the cadet. *)
Definition created : Response :=
  {| ok := true;
     json := Fulfilled (JObj [("success", JBool true);
                              ("cadet", JObj Sample.c1)]) |}.

(** The remote function refused with a reason of its own. *)
Definition refused : Response :=
  {| ok := false;
     json := Fulfilled (JObj [("error", JStr "Email already registered")]) |}.

(** The argument of an [addCadetByAdmin] call whose [squad] is not a number
    (what [parseInt] makes of an empty form field) and whose [avatar_url]
    was left [undefined]. *)
Definition unnumbered : JsValue :=
  JObj [("name", JStr "Sidorov"); ("email", JStr "sidorov@example.org");
        ("password", JStr "secret"); ("platoon", JStr "10-1");
        ("squad", JNum PrimFloat.nan); ("avatar_url", JUndefined)].

(** What the remote function is handed for it. *)
Definition unnumbered_sent : JsValue :=
  JObj [("name", JStr "Sidorov"); ("email", JStr "sidorov@example.org");
        ("password", JStr "secret"); ("platoon", JStr "10-1");
        ("squad", JNull)].

End Awards.

(** Not a function of the module: what [getCadets] would be if it kept the
    rows of its last answer in a variable of the module and served them
    when the backend fails.  It is here to be told apart from the module's
    own functions. *)
Module Otherwise.

Definition getCadets_remembering (env : ImportMetaEnv) : Prog JsValue :=
  r <- await_query (from (supabase env) "cadets"
                      |> select "*"
                      |> order "total_score" descending) ;;
  if truthy (error r) then
    last <- read_binding "cadets" ;;
    if truthy last then ret last
    else
      console_error "Error fetching cadets:" (error r) ;;
      raise (error r)
  else
    write_binding "cadets" (data r ||| JArr []) ;;
    ret (data r ||| JArr []).

(** The backend is down. *)
Definition down : Result JsValue :=
  {| data := JNull; error := Store.unreachable |}.

End Otherwise.

(** ** The specification's vocabulary *)

(** The values a call received from its caller, in the order of the
    function's parameters. *)
Definition arguments (c : Call) : list JsValue :=
  match c with
  | CallGetCadets | CallGetTasks | CallGetNews | CallGetAchievements
  | CallGetAutoAchievements | CallSignOut | CallGetCurrentUser => []
  | CallGetCadetAchievements cadetId | CallGetCadetScores cadetId
  | CallGetScoreHistory cadetId => [JStr cadetId]
  | CallAddCadetByAdmin cadetData => [cadetData]
  | CallUpdateCadetByAdmin id cadetData => [JStr id; cadetData]
  | CallDeleteCadet id | CallGetCadetById id => [JStr id]
  | CallSignUp email password | CallSignIn email password =>
      [JStr email; JStr password]
  end.

(** The values a call sends that are written in its source text rather than
    received: the ['active'] of [getTasks]. *)
Definition literals (c : Call) : list JsValue :=
  match c with
  | CallGetTasks => [JStr "active"]
  | _ => []
  end.

(** The calls that go through the SDK client; [addCadetByAdmin] alone goes
    through [fetch]. *)
Definition uses_sdk (c : Call) : bool :=
  match c with
  | CallAddCadetByAdmin _ => false
  | _ => true
  end.

(** The getters declared to return an array. *)
Definition list_getter (c : Call) : bool :=
  match c with
  | CallGetCadets | CallGetTasks | CallGetNews | CallGetAchievements
  | CallGetAutoAchievements | CallGetCadetAchievements _
  | CallGetScoreHistory _ => true
  | _ => false
  end.

(** The getters declared to return a row or [null]. *)
Definition nullable_getter (c : Call) : bool :=
  match c with
  | CallGetCadetScores _ | CallGetCadetById _ => true
  | _ => false
  end.

(** "If the backend reports an error, the call logs it and rethrows it
    unchanged": every error an answer of the run reports is what the promise
    rejects with, and is what was written to the console. *)
Definition logs_and_rethrows {W : Type} (r : Run W JsValue) : Prop :=
  forall a e,
    In a (answers (trace r)) -> reported_error a = Some e ->
    outcome r = Rejected e /\ map snd (logged (trace r)) = [e].

(** The name a call's function is exported under. *)
Definition name_of (c : Call) : string :=
  match c with
  | CallGetCadets => "getCadets"
  | CallGetTasks => "getTasks"
  | CallGetNews => "getNews"
  | CallGetAchievements => "getAchievements"
  | CallGetAutoAchievements => "getAutoAchievements"
  | CallGetCadetAchievements _ => "getCadetAchievements"
  | CallGetCadetScores _ => "getCadetScores"
  | CallGetScoreHistory _ => "getScoreHistory"
  | CallAddCadetByAdmin _ => "addCadetByAdmin"
  | CallUpdateCadetByAdmin _ _ => "updateCadetByAdmin"
  | CallDeleteCadet _ => "deleteCadet"
  | CallGetCadetById _ => "getCadetById"
  | CallSignUp _ _ => "signUp"
  | CallSignIn _ _ => "signIn"
  | CallSignOut => "signOut"
  | CallGetCurrentUser => "getCurrentUser"
  end.

(** The label a function writes to the console before the error it
    rethrows; [addCadetByAdmin] has no [console.error]. *)
Definition console_label (c : Call) : option string :=
  match c with
  | CallGetCadets => Some "Error fetching cadets:"
  | CallGetTasks => Some "Error fetching tasks:"
  | CallGetNews => Some "Error fetching news:"
  | CallGetAchievements => Some "Error fetching achievements:"
  | CallGetAutoAchievements => Some "Error fetching auto achievements:"
  | CallGetCadetAchievements _ => Some "Error fetching cadet achievements:"
  | CallGetCadetScores _ => Some "Error fetching cadet scores:"
  | CallGetScoreHistory _ => Some "Error fetching score history:"
  | CallAddCadetByAdmin _ => None
  | CallUpdateCadetByAdmin _ _ => Some "Error updating cadet:"
  | CallDeleteCadet _ => Some "Error deleting cadet:"
  | CallGetCadetById _ => Some "Error fetching cadet:"
  | CallSignUp _ _ => Some "Error signing up:"
  | CallSignIn _ _ => Some "Error signing in:"
  | CallSignOut => Some "Error signing out:"
  | CallGetCurrentUser => Some "Error getting current user:"
  end.

(** The calls that hand the [data] of the answer to the caller as it is. *)
Definition returns_data (c : Call) : bool :=
  match c with
  | CallGetCadetScores _ | CallGetCadetById _ | CallUpdateCadetByAdmin _ _
  | CallSignUp _ _ | CallSignIn _ _ => true
  | _ => false
  end.

(** The calls that return nothing ([Promise<void>] with no [return]). *)
Definition returns_nothing (c : Call) : bool :=
  match c with
  | CallDeleteCadet _ | CallSignOut => true
  | _ => false
  end.

(** The reads of one row by a key: the column asked and its value. *)
Definition row_key (c : Call) : option (string * string) :=
  match c with
  | CallGetCadetScores cadetId => Some ("cadet_id", cadetId)
  | CallGetCadetById id => Some ("id", id)
  | _ => None
  end.

(** The column a list getter has its rows ordered by. *)
Definition sort_column (c : Call) : string :=
  match c with
  | CallGetCadets => "total_score"
  | CallGetCadetAchievements _ => "awarded_date"
  | _ => "created_at"
  end.

(** The [{ data, error }] pair of an SDK answer that has a plain [data]. *)
Definition sdk_result (a : Answer) : option (Result JsValue) :=
  match a with
  | AnsPostgrest r | AnsAuth r => Some r
  | AnsGetUser _ | AnsFetch _ => None
  end.

(** The value of a header of a request, if it has that header. *)
Fixpoint own_header (headers : list (string * string)) (name : string)
  : option string :=
  match headers with
  | [] => None
  | (k, v) :: rest => if String.eqb k name then Some v else own_header rest name
  end.

(** A request goes to the project the environment configures: an SDK request
    through the client made from the URL and the key, the POST to a path
    under that URL with that key as its bearer token. *)
Definition addressed_to (env : ImportMetaEnv) (r : Request) : Prop :=
  match r with
  | ReqPostgrest q =>
      client q =
        createClient (VITE_SUPABASE_URL env) (VITE_SUPABASE_ANON_KEY env)
  | ReqAuth c _ | ReqGetUser c =>
      c = createClient (VITE_SUPABASE_URL env) (VITE_SUPABASE_ANON_KEY env)
  | ReqFetch url init =>
      (exists path, url = VITE_SUPABASE_URL env ++ path) /\
      own_header (headers init) "Authorization" =
        Some ("Bearer " ++ VITE_SUPABASE_ANON_KEY env)
  end.

(** * Properties *)

(** Unfold a call down to the backend's answer and the branch taken on it. *)
Ltac ask_backend :=
  repeat match goal with
    | |- context [on_postgrest ?h ?q ?w] =>
        let a := fresh "a" in let w' := fresh "w'" in let E := fresh "E" in
        destruct (on_postgrest h q w) as [a w'] eqn:E
    | |- context [on_auth ?h ?c ?r ?w] =>
        let a := fresh "a" in let w' := fresh "w'" in let E := fresh "E" in
        destruct (on_auth h c r w) as [a w'] eqn:E
    | |- context [on_getUser ?h ?c ?w] =>
        let a := fresh "a" in let w' := fresh "w'" in let E := fresh "E" in
        destruct (on_getUser h c w) as [a w'] eqn:E
    | |- context [on_fetch ?h ?u ?i ?w] =>
        let a := fresh "a" in let w' := fresh "w'" in let E := fresh "E" in
        destruct (on_fetch h u i w) as [a w'] eqn:E
    end.

Ltac branch :=
  repeat (cbn;
    match goal with
    | |- context [if truthy ?e then _ else _] =>
        let T := fresh "T" in destruct (truthy e) eqn:T
    | |- context [match ?s with Fulfilled _ => _ | Rejected _ => _ end] =>
        let S := fresh "S" in destruct s eqn:S
    | |- context [await ?s] =>
        let S := fresh "S" in destruct s eqn:S
    | |- context [if negb (ok ?r) then _ else _] =>
        let O := fresh "O" in destruct (ok r) eqn:O
    | |- context [read ?v ?k] =>
        let G := fresh "G" in unfold read; destruct (get_property v k) eqn:G
    end); cbn.

(** Close a case from what the hypotheses say about the answers. *)
Ltac settle :=
  intros;
  repeat match goal with
    | H : _ :: _ = _ :: _ |- _ => injection H as H; subst
    | H : _ /\ _ |- _ => destruct H
    | H : In _ (_ :: _) |- _ => destruct H as [H | H]; [subst | ]
    | H : In _ [] |- _ => destruct H
    | H : False |- _ => destruct H
    | H : _ \/ _ |- _ => destruct H; subst
    end;
  cbn in *;
  repeat match goal with
    | H : truthy ?e = _ |- _ => rewrite H in *
    | H : ok ?r = _ |- _ => rewrite H in *
    | H : json ?r = _ |- _ => rewrite H in *
    | H : get_property ?v ?k = _ |- _ => rewrite H in *
    | H : Some _ = Some _ |- _ => injection H as H; subst
    | H : Fulfilled _ = Fulfilled _ |- _ => injection H as H; subst
    end;
  cbn in *; try discriminate; try congruence; auto.

(** ** Facts about any program *)

Lemma sortedb_Sorted {A : Type} (r : A -> A -> bool) (l : list A) :
  sortedb r l = true -> Sorted (fun a b => r a b = true) l.
Proof.
  induction l as [| a rest IH]; intros H.
  - constructor.
  - destruct rest as [| b rest'].
    + repeat constructor.
    + cbn in H. apply andb_true_iff in H as [Hab Hrest].
      constructor; [apply IH; exact Hrest | constructor; exact Hab].
Qed.

Lemma or_else_empty_array (v : JsValue) :
  v ||| JArr [] <> JNull /\ v ||| JArr [] <> JUndefined /\
  (v = JNull \/ v = JUndefined -> v ||| JArr [] = JArr []).
Proof.
  unfold or_else. destruct (truthy v) eqn:T.
  - repeat split; try (intros ->; discriminate T).
    intros [-> | ->]; discriminate T.
  - repeat split; discriminate.
Qed.

Lemma rows_of_or_else_empty (v row : JsValue) :
  In row (rows_of (v ||| JArr [])) -> In row (rows_of v).
Proof.
  unfold or_else. destruct (truthy v); [auto | intros []].
Qed.

Lemma row_matches_column (conditions : list (string * string))
  (row : JsValue) (col value : string) :
  row_matches conditions row = true ->
  In (col, value) conditions ->
  column row col = JStr value.
Proof.
  unfold row_matches. rewrite forallb_forall. intros Hall Hin.
  specialize (Hall _ Hin). cbn in Hall.
  destruct (column row col); try discriminate.
  f_equal. apply String.eqb_eq. exact Hall.
Qed.

Lemma meets_filters_rows (q : PostgrestQuery) (a : Result JsValue)
  (row : JsValue) (col value : string) :
  meets_filters q a = true ->
  truthy (error a) = false ->
  In row (rows_of (data a)) ->
  In (col, value) (filters q) ->
  column row col = JStr value.
Proof.
  unfold meets_filters. intros H T Hrow Hin. rewrite T in H. cbn in H.
  rewrite forallb_forall in H.
  apply row_matches_column with (conditions := filters q); auto.
Qed.

(** What [JSON.stringify] writes of a value made of JSON's own values is
    that value. *)
Lemma JSON_stringify_faithful (v : JsValue) :
  json_faithful v = true -> JSON_stringify v = Some v.
Proof.
  induction v as [| | b | x | s | items IH | properties IH | message IH |]
    using JsValue_induction; cbn; intros H; try discriminate H;
    try reflexivity.
  - unfold JSON_number. destruct (PrimFloat.classify x);
      try discriminate H; reflexivity.
  - do 2 f_equal. induction IH as [| item rest Hitem _ IHrest]; cbn.
    + reflexivity.
    + cbn in H. apply andb_true_iff in H as [Hi Hr].
      rewrite (Hitem Hi), (IHrest Hr). reflexivity.
  - do 2 f_equal. induction IH as [| [k x] rest Hx _ IHrest]; cbn.
    + reflexivity.
    + cbn in H, Hx. apply andb_true_iff in H as [Hi Hr].
      rewrite (Hx Hi), (IHrest Hr). reflexivity.
Qed.

(** The answers received and the values found in the module's variables
    settle a run: two backends that gave a program the same answers, with
    the same values kept from before, saw the same requests and console
    lines, left the promise in the same state and the variables alike. *)
Lemma answers_settle_the_run {A W1 W2 : Type} (h1 : Handler W1)
  (h2 : Handler W2) (p : Prog A) :
  forall m w1 w2,
    answers (trace (run_with h1 p m w1)) =
      answers (trace (run_with h2 p m w2)) ->
    trace (run_with h1 p m w1) = trace (run_with h2 p m w2) /\
    outcome (run_with h1 p m w1) = outcome (run_with h2 p m w2) /\
    kept (run_with h1 p m w1) = kept (run_with h2 p m w2).
Proof.
  induction p as [a | reason | label v k IH | name k IH | name v k IH
                 | q k IH | c r k IH | c k IH | url init k IH];
    intros m w1 w2 H; cbn in *.
  - repeat split; reflexivity.
  - repeat split; reflexivity.
  - destruct (IH m w1 w2 H) as [Ht [Ho Hk]]. rewrite Ht, Ho, Hk.
    repeat split; reflexivity.
  - apply IH. exact H.
  - apply IH. exact H.
  - destruct (on_postgrest h1 q w1) as [a1 w1'],
             (on_postgrest h2 q w2) as [a2 w2']; cbn in *.
    injection H as Ha Hrest. subst a2.
    destruct (IH a1 m w1' w2' Hrest) as [Ht [Ho Hk]]. rewrite Ht, Ho, Hk.
    repeat split; reflexivity.
  - destruct (on_auth h1 c r w1) as [a1 w1'],
             (on_auth h2 c r w2) as [a2 w2']; cbn in *.
    injection H as Ha Hrest. subst a2.
    destruct (IH a1 m w1' w2' Hrest) as [Ht [Ho Hk]]. rewrite Ht, Ho, Hk.
    repeat split; reflexivity.
  - destruct (on_getUser h1 c w1) as [a1 w1'],
             (on_getUser h2 c w2) as [a2 w2']; cbn in *.
    injection H as Ha Hrest. subst a2.
    destruct (IH a1 m w1' w2' Hrest) as [Ht [Ho Hk]]. rewrite Ht, Ho, Hk.
    repeat split; reflexivity.
  - destruct (on_fetch h1 url init w1) as [a1 w1'],
             (on_fetch h2 url init w2) as [a2 w2']; cbn in *.
    injection H as Ha Hrest. subst a2.
    destruct (IH a1 m w1' w2' Hrest) as [Ht [Ho Hk]]. rewrite Ht, Ho, Hk.
    repeat split; reflexivity.
Qed.

Section Properties.

Variable env : ImportMetaEnv.
Variable W : Type.
Variable h : Handler W.

(** Every call is one exchange with the backend, then at most one console
    line. *)
Lemma one_exchange (c : Call) (w : W) :
  exists r a,
    requests (trace (run h (exported env c) w)) = [r] /\
    answers (trace (run h (exported env c) w)) = [a] /\
    a = answer_to h r w.
Proof.
  destruct c; cbn; ask_backend; cbn;
    do 2 eexists; (split; [| split]);
    try (branch; reflexivity);
    cbn; rewrite E; reflexivity.
Qed.

(** Seen from the backend: a scripted backend that has served [n] requests
    has served [n + 1] after any call. *)
Lemma scripted_backend_served_once (s : Script) (c : Call) (n : nat) :
  final (run (scripted s) (exported env c) n) = S n.
Proof.
  destruct c; cbn; branch; reflexivity.
Qed.

(** C2: for every exported operation, every input and every backend, a call
    performs exactly one backend request: never zero, never more than one,
    and none repeated after a failure. *)
Theorem one_request_per_call (c : Call) (w : W) :
  length (requests (trace (run h (exported env c) w))) = 1.
Proof.
  destruct c; cbn; ask_backend; branch; reflexivity.
Qed.

(** C3, as amended: for every input, the first thing a call does is the
    backend request: nothing is rejected or failed on beforehand.  A call
    through the SDK client hands its arguments over as they were given
    (after the one literal of [getTasks]).  [addCadetByAdmin] hands over
    what [JSON.stringify] writes of its argument, which is the argument
    itself when every value in it is one JSON writes as it is. *)
Theorem arguments_forwarded_first (c : Call) (w : W) :
  exists r rest,
    trace (run h (exported env c) w) = EvRequest r :: rest /\
    (uses_sdk c = true -> payload r = (literals c ++ arguments c)%list) /\
    (forall cadetData,
       c = CallAddCadetByAdmin cadetData ->
       payload r = match JSON_stringify cadetData with
                   | Some document => [document]
                   | None => []
                   end /\
       (json_faithful cadetData = true -> payload r = arguments c)).
Proof.
  destruct c; cbn; ask_backend; cbn;
    do 2 eexists; (split; [reflexivity |]);
    (split; [try discriminate; reflexivity |]);
    intros d Hd; try discriminate Hd.
  injection Hd as <-. cbn. split; [reflexivity |].
  intros Hf. rewrite (JSON_stringify_faithful cadetData Hf). reflexivity.
Qed.

(** C4: [addCadetByAdmin] makes no table request at all, to [cadets],
    [scores] or any other table; its one request is a POST to the remote
    [create-cadet] function. *)
Theorem addCadetByAdmin_only_posts (cadetData : JsValue) (w : W) :
  requests (trace (run h (addCadetByAdmin env cadetData) w)) =
    [ReqFetch (supabaseUrl env ++ "/functions/v1/create-cadet")
       {| method := "POST";
          headers := [("Content-Type", "application/json");
                      ("Authorization", "Bearer " ++ supabaseAnonKey env)];
          body := JSON_stringify cadetData |}] /\
  forall q,
    ~ In (ReqPostgrest q)
         (requests (trace (run h (addCadetByAdmin env cadetData) w))).
Proof.
  assert (E : requests (trace (run h (addCadetByAdmin env cadetData) w)) =
    [ReqFetch (supabaseUrl env ++ "/functions/v1/create-cadet")
       {| method := "POST";
          headers := [("Content-Type", "application/json");
                      ("Authorization", "Bearer " ++ supabaseAnonKey env)];
          body := JSON_stringify cadetData |}]).
  { cbn; ask_backend; branch; reflexivity. }
  split; [exact E |].
  intros q Hin. rewrite E in Hin. destruct Hin as [Hq | []]. discriminate Hq.
Qed.

(** C1, as amended: a call through the SDK client whose answer reports an
    error writes that error to the console and rejects with that same value.
    In [addCadetByAdmin] a rejected [fetch] or an unreadable body rejects
    the call with the same reason, and a response that is not [ok] rejects
    it with a new [Error] made from the [error] property of the body, or
    from the text 'Failed to create cadet' when that property is falsy. *)
Theorem errors_logged_and_rethrown (c : Call) (w : W) :
  (uses_sdk c = true -> logs_and_rethrows (run h (exported env c) w)) /\
  (forall cadetData, c = CallAddCadetByAdmin cadetData ->
     (forall reason,
        answers (trace (run h (exported env c) w)) = [AnsFetch (Rejected reason)] ->
        outcome (run h (exported env c) w) = Rejected reason) /\
     (forall response reason,
        answers (trace (run h (exported env c) w)) = [AnsFetch (Fulfilled response)] ->
        json response = Rejected reason ->
        outcome (run h (exported env c) w) = Rejected reason) /\
     (forall response errorData,
        answers (trace (run h (exported env c) w)) = [AnsFetch (Fulfilled response)] ->
        ok response = false ->
        json response = Fulfilled errorData ->
        outcome (run h (exported env c) w) =
          Rejected match get_property errorData "error" with
                   | Some message =>
                       JNewError (message ||| JStr "Failed to create cadet")
                   | None => JTypeError
                   end)).
Proof.
  split.
  - unfold logs_and_rethrows.
    destruct c; try discriminate; intros _ a0 e; cbn; ask_backend; branch;
      settle.
  - intros cadetData ->. cbn. ask_backend.
    repeat split; branch; settle.
Qed.

(** C5: no call writes to [score_history]: the one request any call makes
    to that table is the read of [getScoreHistory], and when the backend
    applies the filter it was sent, every entry that read resolves to has
    the [cadet_id] that was asked for. *)
Theorem score_history_only_read (c : Call) (w : W) :
  (forall q,
     In (ReqPostgrest q) (requests (trace (run h (exported env c) w))) ->
     table q = "score_history" ->
     is_write q = false /\
     exists cadetId,
       c = CallGetScoreHistory cadetId /\ filters q = [("cadet_id", cadetId)]) /\
  (forall cadetId q a rest entries,
     c = CallGetScoreHistory cadetId ->
     trace (run h (exported env c) w) =
       EvRequest (ReqPostgrest q) :: EvAnswer (AnsPostgrest a) :: rest ->
     meets_filters q a = true ->
     outcome (run h (exported env c) w) = Fulfilled entries ->
     Forall (fun entry => column entry "cadet_id" = JStr cadetId)
            (rows_of entries)).
Proof.
  split.
  - intros q. destruct c; cbn; ask_backend; branch;
      intros [Hq | []] Ht; inversion Hq; subst q; cbn in Ht;
      try discriminate Ht; split; eauto.
  - intros cadetId q a rest entries ->. cbn. ask_backend.
    branch; intros Ht Hm Ho; inversion Ht; subst; [discriminate Ho |].
    injection Ho as <-. apply Forall_forall. intros entry Hin.
    apply rows_of_or_else_empty in Hin.
    eapply meets_filters_rows; eauto. cbn. auto.
Qed.

(** C6: for every [cadetId], [getCadetScores] asks the [scores] table for
    the one row ([.single()]) whose [cadet_id] is the given one, and
    resolves to the row the backend answers with as it is; for a [Score]
    that is its [study_score], [discipline_score] and [events_score]. *)
Theorem getCadetScores_single_score (cadetId : string) (w : W) :
  (exists q,
     requests (trace (run h (getCadetScores env cadetId) w)) = [ReqPostgrest q] /\
     q = (from (supabase env) "scores"
            |> select "*" |> eq "cadet_id" cadetId |> single) /\
     table q = "scores" /\ is_write q = false /\
     filters q = [("cadet_id", cadetId)] /\ is_single q = true) /\
  (forall a,
     answers (trace (run h (getCadetScores env cadetId) w)) = [AnsPostgrest a] ->
     truthy (error a) = false ->
     outcome (run h (getCadetScores env cadetId) w) = Fulfilled (data a)) /\
  (forall s,
     answers (trace (run h (getCadetScores env cadetId) w)) =
       [AnsPostgrest {| data := Score_row s; error := JNull |}] ->
     exists score,
       outcome (run h (getCadetScores env cadetId) w) = Fulfilled score /\
       column score "study_score" = JNum (study_score s) /\
       column score "discipline_score" = JNum (discipline_score s) /\
       column score "events_score" = JNum (events_score s)).
Proof.
  split; [| split].
  - cbn. ask_backend. branch; eexists; repeat split; reflexivity.
  - intros a. cbn. ask_backend. branch; settle.
  - intros s. cbn. ask_backend. branch; intros Ha; injection Ha as ->;
      cbn in *; try discriminate.
    eexists. repeat split; reflexivity.
Qed.

(** C8: when the backend reports success, a list getter resolves to a value
    that is neither [null] nor [undefined], and to the empty array when the
    answer carries no data. *)
Theorem list_getters_resolve_to_arrays (c : Call) (w : W)
  (a : Result JsValue) :
  list_getter c = true ->
  answers (trace (run h (exported env c) w)) = [AnsPostgrest a] ->
  truthy (error a) = false ->
  exists v,
    outcome (run h (exported env c) w) = Fulfilled v /\
    v <> JNull /\ v <> JUndefined /\
    (data a = JNull \/ data a = JUndefined -> v = JArr []).
Proof.
  destruct c; try discriminate; intros _; cbn; ask_backend; branch;
    intros Ha Te; injection Ha as ->; try congruence;
    exists (data a ||| JArr []);
    (split; [reflexivity | apply or_else_empty_array]).
Qed.


(** When the backend keeps to the shape it documents for [.single()], an
    error or one row object, an answer without a row makes these calls
    reject, and they do not resolve to [null] or [undefined]. *)
Lemma single_row_contract_excludes_null (c : Call) (w : W)
  (a : Result JsValue) :
  nullable_getter c = true ->
  answers (trace (run h (exported env c) w)) = [AnsPostgrest a] ->
  single_shape a = true ->
  (exists q,
     requests (trace (run h (exported env c) w)) = [ReqPostgrest q] /\
     is_single q = true) /\
  ((forall properties, data a <> JObj properties) ->
   outcome (run h (exported env c) w) = Rejected (error a) /\
   map snd (logged (trace (run h (exported env c) w))) = [error a]) /\
  outcome (run h (exported env c) w) <> Fulfilled JNull /\
  outcome (run h (exported env c) w) <> Fulfilled JUndefined.
Proof.
  unfold single_shape.
  destruct c; try discriminate; intros _; cbn; ask_backend; branch;
    intros Ha Hs; injection Ha as ->; rewrite T in Hs; cbn in Hs;
    (split; [eexists; split; reflexivity |]).
  1, 3: split; [intros _; split; reflexivity | split; discriminate].
  all: destruct (data a) eqn:D; try discriminate Hs.
  all: split; [intros Hno; exfalso; eapply Hno; reflexivity |].
  all: split; discriminate.
Qed.

(** C10: [getTasks] asks for the tasks whose [status] is ['active'], newest
    first; when the backend applies that filter and that order, every task
    the call resolves to has [status] equal to ['active'], no other task is
    among them, nothing is logged, and the tasks come by [created_at]
    descending. *)
Theorem getTasks_active_newest_first (le : JsValue -> JsValue -> bool)
  (w : W) (q : PostgrestQuery) (a : Result JsValue) (rest : list Event)
  (tasks : JsValue) :
  trace (run h (getTasks env) w) =
    EvRequest (ReqPostgrest q) :: EvAnswer (AnsPostgrest a) :: rest ->
  meets_filters q a = true ->
  in_order le q a = true ->
  outcome (run h (getTasks env) w) = Fulfilled tasks ->
  q = (from (supabase env) "tasks"
         |> select "*" |> eq "status" "active"
         |> order "created_at" descending) /\
  Forall (fun task => column task "status" = JStr "active") (rows_of tasks) /\
  Sorted (fun newer older =>
            le (column older "created_at") (column newer "created_at") = true)
         (rows_of tasks) /\
  logged (trace (run h (getTasks env) w)) = [].
Proof.
  cbn. ask_backend.
  branch; intros Ht Hm Hord Ho; inversion Ht; subst; [discriminate Ho |].
  injection Ho as <-. split; [reflexivity |]. split; [| split].
  - apply Forall_forall. intros task Hin.
    apply rows_of_or_else_empty in Hin.
    eapply meets_filters_rows; eauto. cbn. auto.
  - unfold in_order in Hord. rewrite T in Hord. cbn in Hord.
    unfold or_else. destruct (truthy (data a)); [| constructor].
    apply sortedb_Sorted in Hord.
    eapply Sorted_ind with (P := fun l => Sorted _ l); [constructor | | exact Hord].
    intros x l _ IH Hx. constructor; [exact IH |].
    destruct Hx as [| y l' Hxy]; constructor.
    cbn in Hxy. rewrite andb_true_iff in Hxy. apply Hxy.
  - reflexivity.
Qed.

End Properties.

(** C7: a call's result depends on nothing but the backend's answers, and
    the module keeps nothing between calls: two runs of the same call that
    received identical answers, from whatever backends in whatever states
    and whatever earlier calls left in the module's variables, made the
    same request, wrote the same console lines and settled to the same
    value, and each left the variables as it found them. *)
Theorem same_answers_same_result (env : ImportMetaEnv) (W1 W2 : Type)
  (h1 : Handler W1) (h2 : Handler W2) (c : Call) (m1 m2 : Bindings)
  (w1 : W1) (w2 : W2) :
  answers (trace (run_with h1 (exported env c) m1 w1)) =
    answers (trace (run_with h2 (exported env c) m2 w2)) ->
  outcome (run_with h1 (exported env c) m1 w1) =
    outcome (run_with h2 (exported env c) m2 w2) /\
  trace (run_with h1 (exported env c) m1 w1) =
    trace (run_with h2 (exported env c) m2 w2) /\
  kept (run_with h1 (exported env c) m1 w1) = m1 /\
  kept (run_with h2 (exported env c) m2 w2) = m2.
Proof.
  destruct c; cbn; ask_backend; cbn;
    intros H; injection H as H; subst;
    branch; repeat split; reflexivity.
Qed.

(** That is a fact about the module's functions, not about programs: a
    getter that remembered its last answer would settle differently on the
    same answer, and would leave the variables changed. *)
Example a_remembering_getter_is_told_apart :
  answers (trace (run_with (scripted (Sample.script Otherwise.down
                                        (Rejected JNull)))
                    (Otherwise.getCadets_remembering Sample.env) [] 0)) =
    answers (trace (run_with (scripted (Sample.script Otherwise.down
                                          (Rejected JNull)))
                      (Otherwise.getCadets_remembering Sample.env)
                      [("cadets", JArr [JObj Sample.c1])] 0)) /\
  outcome (run_with (scripted (Sample.script Otherwise.down (Rejected JNull)))
             (Otherwise.getCadets_remembering Sample.env) [] 0) =
    Rejected Store.unreachable /\
  outcome (run_with (scripted (Sample.script Otherwise.down (Rejected JNull)))
             (Otherwise.getCadets_remembering Sample.env)
             [("cadets", JArr [JObj Sample.c1])] 0) =
    Fulfilled (JArr [JObj Sample.c1]) /\
  kept (run_with Store.handler (Otherwise.getCadets_remembering Sample.env)
          [] Sample.db) =
    [("cadets", JArr [JObj Sample.c2; JObj Sample.c1])].
Proof. repeat split; reflexivity. Qed.

(** ** The table store keeps the promises assumed above *)

Lemma insert_sorted_Forall (P : Store.Row -> Prop)
  (keys : list (string * OrderOptions)) (r : Store.Row)
  (rows : list Store.Row) :
  P r -> Forall P rows -> Forall P (Store.insert_sorted keys r rows).
Proof.
  intros Hr Hrows. induction Hrows as [| x rest Hx Hrest IH]; cbn.
  - constructor; [exact Hr | constructor].
  - destruct (Store.before keys r x).
    + constructor; [exact Hr | constructor; assumption].
    + constructor; assumption.
Qed.

Lemma sort_rows_Forall (P : Store.Row -> Prop)
  (keys : list (string * OrderOptions)) (rows : list Store.Row) :
  Forall P rows -> Forall P (Store.sort_rows keys rows).
Proof.
  unfold Store.sort_rows. induction 1 as [| x rest Hx Hrest IH]; cbn.
  - constructor.
  - apply insert_sorted_Forall; assumption.
Qed.

Lemma matching_Forall (q : PostgrestQuery) (rows : list Store.Row) :
  Forall (fun r => row_matches (filters q) (JObj r) = true)
         (Store.matching q rows).
Proof.
  apply Forall_forall. intros r Hin.
  apply filter_In in Hin. apply Hin.
Qed.

(** A read served by the store passes the filters it was sent, for every
    database and every request. *)
Lemma Store_read_meets_filters (q : PostgrestQuery) (db : Store.Database)
  (columns : string) :
  action q = ActSelect columns ->
  meets_filters q (fst (Store.serve q db)) = true.
Proof.
  intros Hact. unfold Store.serve. rewrite Hact. cbn [fst].
  pose proof (sort_rows_Forall (ordering q)
                (matching_Forall q (Store.stored db (table q)))) as Hall.
  unfold meets_filters, Store.respond.
  destruct (is_single q).
  - destruct (Store.sort_rows _ _) as [| row [| row' rest]]; cbn; auto.
    inversion Hall; subst. match goal with H : _ = true |- _ => rewrite H end.
    reflexivity.
  - cbn. apply forallb_forall. intros row Hin.
    apply in_map_iff in Hin as [r [<- Hin]].
    rewrite Forall_forall in Hall. apply Hall. exact Hin.
Qed.

(** A [.single()] read served by the store has the shape assumed of it. *)
Lemma Store_single_read_shape (q : PostgrestQuery) (db : Store.Database)
  (columns : string) :
  action q = ActSelect columns ->
  is_single q = true ->
  single_shape (fst (Store.serve q db)) = true.
Proof.
  intros Hact Hsingle. unfold Store.serve. rewrite Hact. cbn [fst].
  unfold single_shape, Store.respond. rewrite Hsingle.
  destruct (Store.sort_rows _ _) as [| row [| row' rest]]; reflexivity.
Qed.

Lemma matching_none (q : PostgrestQuery) (rows : list Store.Row) :
  (forall r, In r rows -> row_matches (filters q) (JObj r) = false) ->
  Store.matching q rows = [].
Proof.
  unfold Store.matching. induction rows as [| r rest IH]; intros Hnone; cbn.
  - reflexivity.
  - rewrite (Hnone r (or_introl eq_refl)).
    apply IH. intros r' Hin. apply Hnone. right. exact Hin.
Qed.

(** Against the store, for every database: a cadet that is not there is
    reported as the store's no-row error, logged and rethrown. *)
Lemma Store_missing_cadet_is_rejected (env : ImportMetaEnv)
  (db : Store.Database) (id : string) :
  (forall r, In r (Store.stored db "cadets") ->
             column (JObj r) "id" <> JStr id) ->
  outcome (run Store.handler (getCadetById env id) db) =
    Rejected Store.no_single_row /\
  logged (trace (run Store.handler (getCadetById env id) db)) =
    [("Error fetching cadet:", Store.no_single_row)] /\
  final (run Store.handler (getCadetById env id) db) = db.
Proof.
  intros Hmissing. cbn. unfold Store.serve. cbn.
  rewrite matching_none.
  - cbn. repeat split; reflexivity.
  - intros r Hin. cbn. specialize (Hmissing r Hin). cbn in Hmissing.
    destruct (own_property r "id") as [| | | | s | | | |] eqn:P;
      try reflexivity.
    rewrite andb_true_r. apply String.eqb_neq. congruence.
Qed.

(** ** The module at work on the sample data *)

Example getCadets_by_total_score :
  outcome (run Store.handler (getCadets Sample.env) Sample.db) =
    Fulfilled (JArr [JObj Sample.c2; JObj Sample.c1]).
Proof. reflexivity. Qed.

Example getNews_of_an_empty_table :
  outcome (run Store.handler (getNews Sample.env) Sample.db) =
    Fulfilled (JArr []).
Proof. reflexivity. Qed.

Example deleteCadet_removes_the_row :
  let r := run Store.handler (deleteCadet Sample.env "c1") Sample.db in
  outcome r = Fulfilled JUndefined /\
  Store.stored (final r) "cadets" = [Sample.c2] /\
  Store.stored (final r) "score_history" = [Sample.e1; Sample.e2; Sample.e3].
Proof. repeat split; reflexivity. Qed.

Example updateCadetByAdmin_returns_the_row :
  outcome (run Store.handler
             (updateCadetByAdmin Sample.env "c2"
                (JObj [("platoon", JStr "11-2")])) Sample.db) =
    Fulfilled (JObj (Store.assign Sample.c2 [("platoon", JStr "11-2")])).
Proof. reflexivity. Qed.

Example signIn_without_a_service :
  let r := run Store.handler (signIn Sample.env "ivanov@example.org" "pw")
             Sample.db in
  outcome r = Rejected Store.unreachable /\
  logged (trace r) = [("Error signing in:", Store.unreachable)].
Proof. split; reflexivity. Qed.

Example addCadetByAdmin_created :
  outcome (run (scripted
                  (Sample.script Sample.nothing
                     (Fulfilled
                        {| ok := true;
                           json := Fulfilled
                                     (JObj [("cadet", JObj Sample.c1)]) |})))
             (addCadetByAdmin Sample.env Sample.newcomer) 0) =
    Fulfilled (JObj Sample.c1).
Proof. reflexivity. Qed.

(** ** The theorems at concrete inputs *)

(** C1 as the specification states it fails for [addCadetByAdmin]: the
    gateway answers 401 with a body, the call writes nothing to the console
    and rejects with an [Error] of its own text, not with what the backend
    reported. *)
Lemma addCadetByAdmin_replaces_the_error :
  answers (trace (run (scripted (Sample.script Sample.nothing
                                   (Fulfilled Sample.turned_down)))
                    (exported Sample.env (CallAddCadetByAdmin Sample.newcomer))
                    0)) =
    [AnsFetch (Fulfilled Sample.turned_down)] /\
  reported_error (AnsFetch (Fulfilled Sample.turned_down)) =
    Some (JObj [("code", JNum 401); ("message", JStr "Invalid JWT")]) /\
  outcome (run (scripted (Sample.script Sample.nothing
                            (Fulfilled Sample.turned_down)))
             (exported Sample.env (CallAddCadetByAdmin Sample.newcomer)) 0) =
    Rejected (JNewError (JStr "Failed to create cadet")) /\
  logged (trace (run (scripted (Sample.script Sample.nothing
                                  (Fulfilled Sample.turned_down)))
                   (exported Sample.env (CallAddCadetByAdmin Sample.newcomer))
                   0)) = [] /\
  (logs_and_rethrows
     (run (scripted (Sample.script Sample.nothing
                       (Fulfilled Sample.turned_down)))
        (exported Sample.env (CallAddCadetByAdmin Sample.newcomer)) 0) ->
   False).
Proof.
  repeat split; try reflexivity.
  intros H.
  destruct (H (AnsFetch (Fulfilled Sample.turned_down))
              (JObj [("code", JNum 401); ("message", JStr "Invalid JWT")])
              (or_introl eq_refl) eq_refl) as [Ho _].
  discriminate Ho.
Qed.

Lemma errors_logged_and_rethrown_witness :
  uses_sdk (CallGetCadetById "c9") = true /\
  logs_and_rethrows
    (run Store.handler (exported Sample.env (CallGetCadetById "c9"))
       Sample.db) /\
  outcome (run Store.handler (exported Sample.env (CallGetCadetById "c9"))
             Sample.db) = Rejected Store.no_single_row.
Proof.
  split; [reflexivity | split; [| reflexivity]].
  exact (proj1 (errors_logged_and_rethrown Sample.env Store.handler
                  (CallGetCadetById "c9") Sample.db) eq_refl).
Defined.

Lemma score_history_only_read_witness :
  meets_filters
    (from (supabase Sample.env) "score_history"
       |> select "*" |> eq "cadet_id" "c1" |> order "created_at" descending)
    {| data := JArr [JObj Sample.e3; JObj Sample.e1]; error := JNull |} = true /\
  outcome (run Store.handler (exported Sample.env (CallGetScoreHistory "c1"))
             Sample.db) =
    Fulfilled (JArr [JObj Sample.e3; JObj Sample.e1]) /\
  Forall (fun entry => column entry "cadet_id" = JStr "c1")
         (rows_of (JArr [JObj Sample.e3; JObj Sample.e1])).
Proof.
  split; [reflexivity | split; [reflexivity |]].
  eapply (proj2 (score_history_only_read Sample.env Store.handler
                   (CallGetScoreHistory "c1") Sample.db));
    reflexivity.
Defined.

Lemma getCadetScores_single_score_witness :
  answers (trace (run Store.handler (getCadetScores Sample.env "c1")
                    Sample.db)) =
    [AnsPostgrest {| data := Score_row Sample.score_c1; error := JNull |}] /\
  exists score,
    outcome (run Store.handler (getCadetScores Sample.env "c1") Sample.db) =
      Fulfilled score /\
    column score "study_score" = JNum 40 /\
    column score "discipline_score" = JNum 35 /\
    column score "events_score" = JNum 45.
Proof.
  split; [reflexivity |].
  exact (proj2 (proj2 (getCadetScores_single_score Sample.env Store.handler
                         "c1" Sample.db)) Sample.score_c1 eq_refl).
Defined.

Lemma same_answers_same_result_witness :
  answers (trace (run_with Store.handler
                    (exported Sample.env (CallGetCadetScores "c1"))
                    [] Sample.db)) =
    answers (trace (run_with (scripted
                                (Sample.script
                                   {| data := Score_row Sample.score_c1;
                                      error := JNull |}
                                   (Rejected JNull)))
                      (exported Sample.env (CallGetCadetScores "c1"))
                      [("scores", JArr [])] 7)) /\
  outcome (run_with Store.handler
             (exported Sample.env (CallGetCadetScores "c1")) [] Sample.db) =
    outcome (run_with (scripted
                         (Sample.script
                            {| data := Score_row Sample.score_c1;
                               error := JNull |}
                            (Rejected JNull)))
               (exported Sample.env (CallGetCadetScores "c1"))
               [("scores", JArr [])] 7).
Proof.
  split; [reflexivity |].
  exact (proj1 (same_answers_same_result Sample.env Store.handler
                  (scripted
                     (Sample.script
                        {| data := Score_row Sample.score_c1; error := JNull |}
                        (Rejected JNull)))
                  (CallGetCadetScores "c1") [] [("scores", JArr [])]
                  Sample.db 7 eq_refl)).
Defined.

Lemma list_getters_resolve_to_arrays_witness :
  list_getter CallGetNews = true /\
  answers (trace (run (scripted (Sample.script Sample.nothing (Rejected JNull)))
                    (exported Sample.env CallGetNews) 0)) =
    [AnsPostgrest Sample.nothing] /\
  truthy (error Sample.nothing) = false /\
  exists v,
    outcome (run (scripted (Sample.script Sample.nothing (Rejected JNull)))
               (exported Sample.env CallGetNews) 0) = Fulfilled v /\
    v <> JNull /\ v <> JUndefined /\
    (data Sample.nothing = JNull \/ data Sample.nothing = JUndefined ->
     v = JArr []).
Proof.
  split; [reflexivity | split; [reflexivity | split; [reflexivity |]]].
  exact (list_getters_resolve_to_arrays Sample.env
           (scripted (Sample.script Sample.nothing (Rejected JNull)))
           CallGetNews 0 eq_refl eq_refl eq_refl).
Defined.



Lemma getTasks_active_newest_first_witness :
  meets_filters
    (from (supabase Sample.env) "tasks"
       |> select "*" |> eq "status" "active" |> order "created_at" descending)
    {| data := JArr [JObj Sample.t3; JObj Sample.t1]; error := JNull |} = true /\
  in_order Store.value_le
    (from (supabase Sample.env) "tasks"
       |> select "*" |> eq "status" "active" |> order "created_at" descending)
    {| data := JArr [JObj Sample.t3; JObj Sample.t1]; error := JNull |} = true /\
  outcome (run Store.handler (getTasks Sample.env) Sample.db) =
    Fulfilled (JArr [JObj Sample.t3; JObj Sample.t1]) /\
  Forall (fun task => column task "status" = JStr "active")
         (rows_of (JArr [JObj Sample.t3; JObj Sample.t1])) /\
  Sorted (fun newer older =>
            Store.value_le (column older "created_at")
                           (column newer "created_at") = true)
         (rows_of (JArr [JObj Sample.t3; JObj Sample.t1])).
Proof.
  split; [reflexivity | split; [reflexivity | split; [reflexivity |]]].
  destruct (getTasks_active_newest_first Sample.env Store.handler
              Store.value_le Sample.db
              (q := from (supabase Sample.env) "tasks"
                      |> select "*" |> eq "status" "active"
                      |> order "created_at" descending)
              (a := {| data := JArr [JObj Sample.t3; JObj Sample.t1];
                       error := JNull |})
              (rest := [])
              (tasks := JArr [JObj Sample.t3; JObj Sample.t1])
              eq_refl eq_refl eq_refl eq_refl)
    as [_ [Hactive [Hsorted _]]].
  split; assumption.
Defined.

(** * The rest of the module's behaviour *)

Section Coverage.

Variable env : ImportMetaEnv.
Variable W : Type.
Variable h : Handler W.

(** What a call wrote to the console: nothing, or one line under the
    function's own label holding the value the call rejected with. *)
Lemma console_of_a_call (c : Call) (w : W) :
  logged (trace (run h (exported env c) w)) = [] \/
  exists label e,
    console_label c = Some label /\
    logged (trace (run h (exported env c) w)) = [(label, e)] /\
    outcome (run h (exported env c) w) = Rejected e.
Proof.
  destruct c; cbn; ask_backend; branch;
    solve [left; reflexivity
          | right; do 2 eexists; repeat split; reflexivity].
Qed.

(** X1: a call through the SDK client whose answer reports no error
    fulfils and writes nothing to the console, whatever [data] the answer
    holds; an [error] that is falsy (an empty string, [0], [false], [NaN])
    counts as none. *)
Theorem sdk_success_is_silent (c : Call) (w : W) :
  uses_sdk c = true ->
  (forall a, In a (answers (trace (run h (exported env c) w))) ->
             reported_error a = None) ->
  logged (trace (run h (exported env c) w)) = [] /\
  exists v, outcome (run h (exported env c) w) = Fulfilled v.
Proof.
  destruct c; try discriminate; intros _; cbn; ask_backend; branch;
    intros Hnone;
    try (specialize (Hnone _ (or_introl eq_refl)); cbn in Hnone;
         rewrite T in Hnone; discriminate Hnone);
    (split; [reflexivity | eexists; reflexivity]).
Qed.

(** X2: for every call, whatever is written to the console is what the call
    rejects with: at most one line is written, a call that fulfils has
    written none, and no error is logged and then swallowed. *)
Theorem logged_is_thrown (c : Call) (w : W) (label : string) (e : JsValue) :
  In (label, e) (logged (trace (run h (exported env c) w))) ->
  outcome (run h (exported env c) w) = Rejected e /\
  logged (trace (run h (exported env c) w)) = [(label, e)].
Proof.
  intros Hin.
  destruct (console_of_a_call c w) as [Hnone | [l [e' [_ [Hone Ho]]]]].
  - rewrite Hnone in Hin. destruct Hin.
  - rewrite Hone in Hin. destruct Hin as [Heq | []].
    injection Heq as -> ->. split; assumption.
Qed.

(** X3: the label of a console line names the function that failed: two
    calls that wrote the same label are calls of the same function. *)
Theorem label_names_the_function (c1 c2 : Call) (w1 w2 : W)
  (label : string) (e1 e2 : JsValue) :
  In (label, e1) (logged (trace (run h (exported env c1) w1))) ->
  In (label, e2) (logged (trace (run h (exported env c2) w2))) ->
  name_of c1 = name_of c2.
Proof.
  intros H1 H2.
  assert (L1 : console_label c1 = Some label).
  { destruct (console_of_a_call c1 w1) as [Hn | [l [e [Hl [Hone _]]]]].
    - rewrite Hn in H1. destruct H1.
    - rewrite Hone in H1. destruct H1 as [Heq | []]. congruence. }
  assert (L2 : console_label c2 = Some label).
  { destruct (console_of_a_call c2 w2) as [Hn | [l [e [Hl [Hone _]]]]].
    - rewrite Hn in H2. destruct H2.
    - rewrite Hone in H2. destruct H2 as [Heq | []]. congruence. }
  rewrite <- L2 in L1. clear - L1.
  destruct c1, c2; cbn in L1 |- *; try reflexivity; discriminate L1.
Qed.

(** X4: the only table writes the module makes are the update of
    [updateCadetByAdmin] and the delete of [deleteCadet], both on [cadets]
    and both restricted to the rows whose [id] is the given one; no call
    inserts or upserts, and no getter writes. *)
Theorem writes_are_keyed (c : Call) (w : W) (q : PostgrestQuery) :
  In (ReqPostgrest q) (requests (trace (run h (exported env c) w))) ->
  is_write q = true ->
  table q = "cadets" /\
  exists id,
    filters q = [("id", id)] /\
    ((exists cadetData,
        c = CallUpdateCadetByAdmin id cadetData /\
        action q = ActUpdate cadetData /\
        returning q = Some "*" /\ is_single q = true) \/
     (c = CallDeleteCadet id /\ action q = ActDelete /\
      returning q = None /\ is_single q = false)).
Proof.
  destruct c; cbn; ask_backend; branch;
    intros [Hq | []] Hw; inversion Hq; subst q; cbn in Hw;
    try discriminate Hw;
    (split; [reflexivity |]); eexists; (split; [reflexivity |]);
    solve [left; eexists; repeat split; reflexivity
          | right; repeat split; reflexivity].
Qed.

(** X5: every request of every call goes to the one project the environment
    configures: the SDK requests through the client created from
    [VITE_SUPABASE_URL] and [VITE_SUPABASE_ANON_KEY], the POST of
    [addCadetByAdmin] to a path under that URL with that key as bearer
    token. *)
Theorem requests_go_to_the_project (c : Call) (w : W) (r : Request) :
  In r (requests (trace (run h (exported env c) w))) ->
  addressed_to env r.
Proof.
  destruct c; cbn; ask_backend; branch;
    intros [<- | []]; cbn; try reflexivity;
    (split; [eexists; reflexivity | reflexivity]).
Qed.

(** X6: a list getter hands over the rows the backend answered with as
    they are: the same rows in the same order, an empty array included;
    nothing is filtered, sorted or dropped on the client. *)
Theorem list_getters_keep_the_rows (c : Call) (w : W) (a : Result JsValue)
  (rows : list JsValue) :
  list_getter c = true ->
  answers (trace (run h (exported env c) w)) = [AnsPostgrest a] ->
  truthy (error a) = false ->
  data a = JArr rows ->
  outcome (run h (exported env c) w) = Fulfilled (JArr rows).
Proof.
  destruct c; try discriminate; intros _; cbn; ask_backend; branch;
    intros Ha Te Hd; injection Ha as ->; try congruence;
    rewrite Hd; reflexivity.
Qed.

(** X7: every list getter asks for one order, descending: [getCadets] by
    [total_score], [getCadetAchievements] by [awarded_date], the others by
    [created_at]; when the backend answers in the order asked, the rows the
    getter resolves to come in that order, highest or newest first. *)
Theorem list_getters_come_ordered (le : JsValue -> JsValue -> bool)
  (c : Call) (w : W) (q : PostgrestQuery) (a : Result JsValue)
  (rest : list Event) (rows : JsValue) :
  list_getter c = true ->
  trace (run h (exported env c) w) =
    EvRequest (ReqPostgrest q) :: EvAnswer (AnsPostgrest a) :: rest ->
  in_order le q a = true ->
  outcome (run h (exported env c) w) = Fulfilled rows ->
  ordering q = [(sort_column c, {| ascending := false |})] /\
  Sorted (fun first next =>
            le (column next (sort_column c)) (column first (sort_column c))
              = true)
         (rows_of rows).
Proof.
  unfold in_order.
  destruct c; try discriminate; intros _; cbn; ask_backend; branch;
    intros Ht Hord Ho; inversion Ht; subst; try discriminate Ho;
    injection Ho as <-; (split; [reflexivity |]);
    rewrite T in Hord; cbn in Hord;
    unfold or_else; (destruct (truthy (data a)); [| constructor]);
    apply sortedb_Sorted in Hord;
    (eapply Sorted_ind with (P := fun l => Sorted _ l);
       [constructor | | exact Hord]);
    intros x l _ IH Hx; (constructor; [exact IH |]);
    destruct Hx as [| y l' Hxy]; constructor;
    cbn in Hxy; rewrite andb_true_iff in Hxy; apply Hxy.
Qed.

(** X8: [getCadetScores], [getCadetById], [updateCadetByAdmin], [signUp] and
    [signIn] resolve to the [data] of a successful answer as it is, with no
    check of their own: when the answer reports neither an error nor data,
    they resolve to [null]. *)
Theorem data_is_passed_through (c : Call) (w : W) (answer : Answer)
  (a : Result JsValue) :
  returns_data c = true ->
  answers (trace (run h (exported env c) w)) = [answer] ->
  sdk_result answer = Some a ->
  truthy (error a) = false ->
  outcome (run h (exported env c) w) = Fulfilled (data a) /\
  (data a = JNull -> outcome (run h (exported env c) w) = Fulfilled JNull).
Proof.
  destruct c; try discriminate; intros _; cbn; ask_backend; branch;
    intros Ha Hs Te; injection Ha as <-; cbn in Hs; injection Hs as <-;
    try congruence; (split; [reflexivity | intros ->; reflexivity]).
Qed.

(** X9: [deleteCadet] and [signOut] resolve to [undefined] whenever the
    answer reports no error; what the answer holds as [data] (the deleted
    rows, or none when no row had that [id]) never reaches the caller. *)
Theorem void_calls_resolve_to_undefined (c : Call) (w : W) (answer : Answer)
  (a : Result JsValue) :
  returns_nothing c = true ->
  answers (trace (run h (exported env c) w)) = [answer] ->
  sdk_result answer = Some a ->
  truthy (error a) = false ->
  outcome (run h (exported env c) w) = Fulfilled JUndefined.
Proof.
  destruct c; try discriminate; intros _; cbn; ask_backend; branch;
    intros Ha Hs Te; injection Ha as <-; cbn in Hs; injection Hs as <-;
    try congruence; reflexivity.
Qed.

(** X10: [getCurrentUser] resolves to the [user] inside the answer's data,
    not to the data, and does so whenever no error is reported, a [null]
    user (nobody signed in) included. *)
Theorem getCurrentUser_returns_the_user (w : W) (a : Result UserData) :
  answers (trace (run h (getCurrentUser env) w)) = [AnsGetUser a] ->
  truthy (error a) = false ->
  outcome (run h (getCurrentUser env) w) = Fulfilled (user (data a)) /\
  logged (trace (run h (getCurrentUser env) w)) = [].
Proof.
  cbn; ask_backend; branch; intros Ha Te; injection Ha as <-;
    try congruence; split; reflexivity.
Qed.

(** X11: [getCadetScores] and [getCadetById] ask for the row whose key
    column ([cadet_id], [id]) is the given value; when the backend applies
    the filter it was sent, the row they resolve to carries that value in
    that column. *)
Theorem keyed_reads_return_the_row_asked (c : Call) (w : W)
  (q : PostgrestQuery) (a : Result JsValue) (rest : list Event)
  (row : JsValue) (col value : string) :
  row_key c = Some (col, value) ->
  trace (run h (exported env c) w) =
    EvRequest (ReqPostgrest q) :: EvAnswer (AnsPostgrest a) :: rest ->
  meets_filters q a = true ->
  outcome (run h (exported env c) w) = Fulfilled row ->
  filters q = [(col, value)] /\
  (forall properties,
     row = JObj properties -> column row col = JStr value).
Proof.
  destruct c; try discriminate; intros Hk; injection Hk as <- <-;
    cbn; ask_backend; branch;
    intros Ht Hm Ho; inversion Ht; subst; try discriminate Ho;
    injection Ho as <-; (split; [reflexivity |]); intros properties Hrow;
    (eapply meets_filters_rows; eauto; [| cbn; auto]);
    rewrite Hrow; cbn; auto.
Qed.

(** X12: [getCadetAchievements] asks for the achievements of the given
    cadet, each with its [achievement] and [auto_achievement] embedded;
    when the backend applies the filter it was sent, every achievement it
    resolves to has the [cadet_id] asked for. *)
Theorem getCadetAchievements_of_the_cadet (cadetId : string) (w : W)
  (q : PostgrestQuery) (a : Result JsValue) (rest : list Event)
  (achievements : JsValue) :
  trace (run h (getCadetAchievements env cadetId) w) =
    EvRequest (ReqPostgrest q) :: EvAnswer (AnsPostgrest a) :: rest ->
  meets_filters q a = true ->
  outcome (run h (getCadetAchievements env cadetId) w) =
    Fulfilled achievements ->
  table q = "cadet_achievements" /\
  filters q = [("cadet_id", cadetId)] /\
  Forall (fun row => column row "cadet_id" = JStr cadetId)
         (rows_of achievements).
Proof.
  cbn. ask_backend.
  branch; intros Ht Hm Ho; inversion Ht; subst; [discriminate Ho |].
  injection Ho as <-. repeat split.
  apply Forall_forall. intros row Hin.
  apply rows_of_or_else_empty in Hin.
  eapply meets_filters_rows; eauto. cbn. auto.
Qed.

(** X13: [addCadetByAdmin] writes nothing to the console, whatever the
    backend answers: its failures reach the caller only as the rejection. *)
Theorem addCadetByAdmin_never_logs (cadetData : JsValue) (w : W) :
  logged (trace (run h (addCadetByAdmin env cadetData) w)) = [].
Proof.
  cbn. ask_backend. branch; reflexivity.
Qed.

(** X14: [addCadetByAdmin] never fulfils unless the response is [ok]: a
    [fetch] that rejected, and a response that is not [ok] whatever its
    body is (an object, [null], not JSON at all), reject the call. *)
Theorem addCadetByAdmin_not_ok_never_fulfils (cadetData : JsValue) (w : W)
  (answer : Settled Response) :
  answers (trace (run h (addCadetByAdmin env cadetData) w)) =
    [AnsFetch answer] ->
  (forall response, answer = Fulfilled response -> ok response = false) ->
  exists reason,
    outcome (run h (addCadetByAdmin env cadetData) w) = Rejected reason.
Proof.
  cbn. ask_backend.
  branch; intros Ha Hnot; injection Ha as <-;
    try (specialize (Hnot _ eq_refl); congruence);
    eexists; reflexivity.
Qed.

(** X15: the [Error] that [addCadetByAdmin] throws for a response that is
    not [ok] is never made from a falsy value: it is made from the [error]
    property of the body when that is truthy, of whatever type, and from
    the text 'Failed to create cadet' otherwise (no such property, an empty
    string, [null]). *)
Theorem addCadetByAdmin_error_text_never_empty (cadetData : JsValue) (w : W)
  (response : Response) (errorData property : JsValue) :
  answers (trace (run h (addCadetByAdmin env cadetData) w)) =
    [AnsFetch (Fulfilled response)] ->
  ok response = false ->
  json response = Fulfilled errorData ->
  get_property errorData "error" = Some property ->
  exists message,
    outcome (run h (addCadetByAdmin env cadetData) w) =
      Rejected (JNewError message) /\
    truthy message = true /\
    (truthy property = true -> message = property) /\
    (truthy property = false -> message = JStr "Failed to create cadet").
Proof.
  cbn. ask_backend. destruct a as [resp | reason]; cbn.
  - intros Ha Hok Hj Hp. injection Ha as ->.
    rewrite Hok. cbn. rewrite Hj. cbn. unfold read. rewrite Hp. cbn.
    exists (property ||| JStr "Failed to create cadet").
    unfold or_else. destruct (truthy property) eqn:P.
    + repeat split; auto. discriminate.
    + repeat split; auto. discriminate.
  - intros Ha. discriminate Ha.
Qed.

(** X16: on an [ok] response [addCadetByAdmin] resolves to the [cadet]
    property of the body (declared [Promise<void>], it returns a value): to
    [undefined] when the body has no such property, and it throws a
    [TypeError] when the body is [null]; a body that cannot be read rejects
    the call with the reader's reason. *)
Theorem addCadetByAdmin_resolves_to_the_cadet (cadetData : JsValue) (w : W)
  (response : Response) :
  answers (trace (run h (addCadetByAdmin env cadetData) w)) =
    [AnsFetch (Fulfilled response)] ->
  ok response = true ->
  outcome (run h (addCadetByAdmin env cadetData) w) =
    match json response with
    | Fulfilled (JObj properties) => Fulfilled (own_property properties "cadet")
    | Fulfilled JNull | Fulfilled JUndefined => Rejected JTypeError
    | Fulfilled _ => Fulfilled JUndefined
    | Rejected reason => Rejected reason
    end.
Proof.
  cbn. ask_backend. destruct a as [resp | reason]; cbn.
  - intros Ha Hok. injection Ha as ->. rewrite Hok. cbn.
    destruct (json response) as [result | reason]; cbn; [| reflexivity].
    unfold read. destruct result; reflexivity.
  - intros Ha. discriminate Ha.
Qed.

(** X17: a call through the SDK client never rejects silently: whenever
    it rejects, the reason is the truthy [error] of the backend's answer and
    it stands on the console under the function's label. *)
Theorem sdk_rejections_are_logged (c : Call) (w : W) (e : JsValue) :
  uses_sdk c = true ->
  outcome (run h (exported env c) w) = Rejected e ->
  truthy e = true /\
  (exists a, In a (answers (trace (run h (exported env c) w))) /\
             reported_error a = Some e) /\
  exists label,
    console_label c = Some label /\
    logged (trace (run h (exported env c) w)) = [(label, e)].
Proof.
  destruct c; try discriminate; intros _; cbn; ask_backend; branch;
    intros Ho; try discriminate Ho; injection Ho as <-;
    (split; [assumption |]);
    (split; [eexists; split; [left; reflexivity | cbn; rewrite T; reflexivity]
            | eexists; split; reflexivity]).
Qed.

End Coverage.

(** ** These theorems at concrete inputs *)

Lemma sdk_success_is_silent_witness :
  uses_sdk CallSignOut = true /\
  (forall a,
     In a (answers (trace (run (scripted (Sample.script Sample.nothing
                                            (Rejected JNull)))
                             (exported Sample.env CallSignOut) 0))) ->
     reported_error a = None) /\
  logged (trace (run (scripted (Sample.script Sample.nothing (Rejected JNull)))
                   (exported Sample.env CallSignOut) 0)) = [] /\
  exists v,
    outcome (run (scripted (Sample.script Sample.nothing (Rejected JNull)))
               (exported Sample.env CallSignOut) 0) = Fulfilled v.
Proof.
  assert (Hnone : forall a,
     In a (answers (trace (run (scripted (Sample.script Sample.nothing
                                            (Rejected JNull)))
                             (exported Sample.env CallSignOut) 0))) ->
     reported_error a = None).
  { intros a [<- | []]. reflexivity. }
  split; [reflexivity | split; [exact Hnone |]].
  exact (sdk_success_is_silent Sample.env
           (scripted (Sample.script Sample.nothing (Rejected JNull)))
           CallSignOut 0 eq_refl Hnone).
Defined.

Lemma logged_is_thrown_witness :
  In ("Error fetching cadet:", Store.no_single_row)
     (logged (trace (run Store.handler
                       (exported Sample.env (CallGetCadetById "c9"))
                       Sample.db))) /\
  outcome (run Store.handler (exported Sample.env (CallGetCadetById "c9"))
             Sample.db) = Rejected Store.no_single_row /\
  logged (trace (run Store.handler
                   (exported Sample.env (CallGetCadetById "c9")) Sample.db)) =
    [("Error fetching cadet:", Store.no_single_row)].
Proof.
  split; [left; reflexivity |].
  exact (logged_is_thrown Sample.env Store.handler (CallGetCadetById "c9")
           Sample.db "Error fetching cadet:" Store.no_single_row
           (or_introl eq_refl)).
Defined.

Lemma label_names_the_function_witness :
  In ("Error fetching cadet:", Store.no_single_row)
     (logged (trace (run Store.handler
                       (exported Sample.env (CallGetCadetById "c9"))
                       Sample.db))) /\
  In ("Error fetching cadet:", Store.no_single_row)
     (logged (trace (run Store.handler
                       (exported Sample.env (CallGetCadetById "c8"))
                       Sample.db))) /\
  name_of (CallGetCadetById "c9") = name_of (CallGetCadetById "c8").
Proof.
  split; [left; reflexivity | split; [left; reflexivity |]].
  exact (label_names_the_function Sample.env Store.handler
           (CallGetCadetById "c9") (CallGetCadetById "c8")
           Sample.db Sample.db "Error fetching cadet:"
           Store.no_single_row Store.no_single_row
           (or_introl eq_refl) (or_introl eq_refl)).
Defined.

Lemma writes_are_keyed_witness :
  In (ReqPostgrest (from (supabase Sample.env) "cadets"
                      |> delete |> eq "id" "c1"))
     (requests (trace (run Store.handler
                         (exported Sample.env (CallDeleteCadet "c1"))
                         Sample.db))) /\
  is_write (from (supabase Sample.env) "cadets" |> delete |> eq "id" "c1") =
    true /\
  table (from (supabase Sample.env) "cadets" |> delete |> eq "id" "c1") =
    "cadets".
Proof.
  split; [left; reflexivity | split; [reflexivity |]].
  exact (proj1 (writes_are_keyed Sample.env Store.handler
                  (CallDeleteCadet "c1") Sample.db
                  (from (supabase Sample.env) "cadets"
                     |> delete |> eq "id" "c1")
                  (or_introl eq_refl) eq_refl)).
Defined.

Lemma requests_go_to_the_project_witness :
  In (ReqPostgrest (from (supabase Sample.env) "news"
                      |> select "*" |> order "created_at" descending))
     (requests (trace (run Store.handler (exported Sample.env CallGetNews)
                         Sample.db))) /\
  client (from (supabase Sample.env) "news"
            |> select "*" |> order "created_at" descending) =
    createClient "https://cadets.supabase.co" "anon-key".
Proof.
  split; [left; reflexivity |].
  exact (requests_go_to_the_project Sample.env Store.handler CallGetNews
           Sample.db
           (ReqPostgrest (from (supabase Sample.env) "news"
                            |> select "*" |> order "created_at" descending))
           (or_introl eq_refl)).
Defined.

Lemma list_getters_keep_the_rows_witness :
  list_getter CallGetCadets = true /\
  answers (trace (run Store.handler (exported Sample.env CallGetCadets)
                    Sample.db)) =
    [AnsPostgrest {| data := JArr [JObj Sample.c2; JObj Sample.c1];
                     error := JNull |}] /\
  outcome (run Store.handler (exported Sample.env CallGetCadets) Sample.db) =
    Fulfilled (JArr [JObj Sample.c2; JObj Sample.c1]).
Proof.
  split; [reflexivity | split; [reflexivity |]].
  exact (list_getters_keep_the_rows Sample.env Store.handler CallGetCadets
           Sample.db
           (a := {| data := JArr [JObj Sample.c2; JObj Sample.c1];
                    error := JNull |})
           eq_refl eq_refl eq_refl eq_refl).
Defined.

Lemma list_getters_come_ordered_witness :
  list_getter CallGetCadets = true /\
  in_order Store.value_le
    (from (supabase Sample.env) "cadets"
       |> select "*" |> order "total_score" descending)
    {| data := JArr [JObj Sample.c2; JObj Sample.c1]; error := JNull |} =
    true /\
  Sorted (fun first next =>
            Store.value_le (column next "total_score")
                           (column first "total_score") = true)
         [JObj Sample.c2; JObj Sample.c1].
Proof.
  split; [reflexivity | split; [reflexivity |]].
  exact (proj2 (list_getters_come_ordered Sample.env Store.handler
                  Store.value_le CallGetCadets Sample.db
                  (q := from (supabase Sample.env) "cadets"
                          |> select "*" |> order "total_score" descending)
                  (a := {| data := JArr [JObj Sample.c2; JObj Sample.c1];
                           error := JNull |})
                  (rest := [])
                  (rows := JArr [JObj Sample.c2; JObj Sample.c1])
                  eq_refl eq_refl eq_refl eq_refl)).
Defined.

Lemma data_is_passed_through_witness :
  returns_data (CallSignIn "ivanov@example.org" "pw") = true /\
  answers (trace (run (scripted (Sample.script Sample.nothing (Rejected JNull)))
                    (exported Sample.env
                       (CallSignIn "ivanov@example.org" "pw")) 0)) =
    [AnsAuth Sample.nothing] /\
  outcome (run (scripted (Sample.script Sample.nothing (Rejected JNull)))
             (exported Sample.env (CallSignIn "ivanov@example.org" "pw")) 0) =
    Fulfilled JNull.
Proof.
  split; [reflexivity | split; [reflexivity |]].
  exact (proj2 (data_is_passed_through Sample.env
                  (scripted (Sample.script Sample.nothing (Rejected JNull)))
                  (CallSignIn "ivanov@example.org" "pw") 0
                  (answer := AnsAuth Sample.nothing) (a := Sample.nothing)
                  eq_refl eq_refl eq_refl eq_refl) eq_refl).
Defined.

Lemma void_calls_resolve_to_undefined_witness :
  returns_nothing (CallDeleteCadet "c9") = true /\
  answers (trace (run Store.handler
                    (exported Sample.env (CallDeleteCadet "c9"))
                    Sample.db)) =
    [AnsPostgrest Sample.nothing] /\
  outcome (run Store.handler (exported Sample.env (CallDeleteCadet "c9"))
             Sample.db) = Fulfilled JUndefined.
Proof.
  split; [reflexivity | split; [reflexivity |]].
  exact (void_calls_resolve_to_undefined Sample.env Store.handler
           (CallDeleteCadet "c9") Sample.db
           (answer := AnsPostgrest Sample.nothing) (a := Sample.nothing)
           eq_refl eq_refl eq_refl eq_refl).
Defined.

Lemma getCurrentUser_returns_the_user_witness :
  answers (trace (run (scripted (Sample.script Sample.nothing (Rejected JNull)))
                    (getCurrentUser Sample.env) 0)) =
    [AnsGetUser {| data := {| user := JNull |}; error := JNull |}] /\
  outcome (run (scripted (Sample.script Sample.nothing (Rejected JNull)))
             (getCurrentUser Sample.env) 0) = Fulfilled JNull.
Proof.
  split; [reflexivity |].
  exact (proj1 (getCurrentUser_returns_the_user Sample.env
                  (scripted (Sample.script Sample.nothing (Rejected JNull)))
                  0 (a := {| data := {| user := JNull |}; error := JNull |})
                  eq_refl eq_refl)).
Defined.

Lemma keyed_reads_return_the_row_asked_witness :
  row_key (CallGetCadetById "c1") = Some ("id", "c1") /\
  meets_filters
    (from (supabase Sample.env) "cadets"
       |> select "*" |> eq "id" "c1" |> single)
    {| data := JObj Sample.c1; error := JNull |} = true /\
  outcome (run Store.handler (exported Sample.env (CallGetCadetById "c1"))
             Sample.db) = Fulfilled (JObj Sample.c1) /\
  column (JObj Sample.c1) "id" = JStr "c1".
Proof.
  split; [reflexivity | split; [reflexivity | split; [reflexivity |]]].
  exact (proj2 (keyed_reads_return_the_row_asked Sample.env Store.handler
                  (CallGetCadetById "c1") Sample.db
                  (q := from (supabase Sample.env) "cadets"
                          |> select "*" |> eq "id" "c1" |> single)
                  (a := {| data := JObj Sample.c1; error := JNull |})
                  (rest := []) (row := JObj Sample.c1)
                  eq_refl eq_refl eq_refl eq_refl) Sample.c1 eq_refl).
Defined.

Lemma getCadetAchievements_of_the_cadet_witness :
  meets_filters
    (from (supabase Sample.env) "cadet_achievements"
       |> select "
      *,
      achievement:achievements(*),
      auto_achievement:auto_achievements(*)
    "
       |> eq "cadet_id" "c1" |> order "awarded_date" descending)
    Awards.of_c1 = true /\
  outcome (run (scripted (Sample.script Awards.of_c1 (Rejected JNull)))
             (getCadetAchievements Sample.env "c1") 0) =
    Fulfilled (JArr [Awards.a2; Awards.a1]) /\
  Forall (fun row => column row "cadet_id" = JStr "c1")
         (rows_of (JArr [Awards.a2; Awards.a1])).
Proof.
  split; [reflexivity | split; [reflexivity |]].
  eapply (getCadetAchievements_of_the_cadet Sample.env
            (scripted (Sample.script Awards.of_c1 (Rejected JNull)))
            "c1" 0 (a := Awards.of_c1) (rest := []));
    reflexivity.
Defined.

Lemma addCadetByAdmin_not_ok_never_fulfils_witness :
  answers (trace (run (scripted (Sample.script Sample.nothing
                                   (Fulfilled Sample.turned_down)))
                    (addCadetByAdmin Sample.env Sample.newcomer) 0)) =
    [AnsFetch (Fulfilled Sample.turned_down)] /\
  ok Sample.turned_down = false /\
  exists reason,
    outcome (run (scripted (Sample.script Sample.nothing
                              (Fulfilled Sample.turned_down)))
               (addCadetByAdmin Sample.env Sample.newcomer) 0) =
      Rejected reason.
Proof.
  split; [reflexivity | split; [reflexivity |]].
  apply (addCadetByAdmin_not_ok_never_fulfils Sample.env
           (scripted (Sample.script Sample.nothing
                        (Fulfilled Sample.turned_down)))
           Sample.newcomer 0 (answer := Fulfilled Sample.turned_down)
           eq_refl).
  intros response Hr. injection Hr as <-. reflexivity.
Defined.

Lemma addCadetByAdmin_error_text_never_empty_witness :
  ok Awards.refused = false /\
  get_property (JObj [("error", JStr "Email already registered")]) "error" =
    Some (JStr "Email already registered") /\
  exists message,
    outcome (run (scripted (Sample.script Sample.nothing
                              (Fulfilled Awards.refused)))
               (addCadetByAdmin Sample.env Sample.newcomer) 0) =
      Rejected (JNewError message) /\
    truthy message = true /\
    (truthy (JStr "Email already registered") = true ->
     message = JStr "Email already registered") /\
    (truthy (JStr "Email already registered") = false ->
     message = JStr "Failed to create cadet").
Proof.
  split; [reflexivity | split; [reflexivity |]].
  exact (addCadetByAdmin_error_text_never_empty Sample.env
           (scripted (Sample.script Sample.nothing
                        (Fulfilled Awards.refused)))
           Sample.newcomer 0 (response := Awards.refused)
           eq_refl eq_refl eq_refl eq_refl).
Defined.

Lemma addCadetByAdmin_resolves_to_the_cadet_witness :
  ok Awards.created = true /\
  outcome (run (scripted (Sample.script Sample.nothing
                            (Fulfilled Awards.created)))
             (addCadetByAdmin Sample.env Sample.newcomer) 0) =
    Fulfilled (JObj Sample.c1).
Proof.
  split; [reflexivity |].
  exact (addCadetByAdmin_resolves_to_the_cadet Sample.env
           (scripted (Sample.script Sample.nothing
                        (Fulfilled Awards.created)))
           Sample.newcomer 0 (response := Awards.created)
           eq_refl eq_refl).
Defined.

Lemma sdk_rejections_are_logged_witness :
  uses_sdk (CallSignIn "ivanov@example.org" "pw") = true /\
  outcome (run Store.handler
             (exported Sample.env (CallSignIn "ivanov@example.org" "pw"))
             Sample.db) = Rejected Store.unreachable /\
  truthy Store.unreachable = true /\
  exists label,
    console_label (CallSignIn "ivanov@example.org" "pw") = Some label /\
    logged (trace (run Store.handler
                     (exported Sample.env
                        (CallSignIn "ivanov@example.org" "pw"))
                     Sample.db)) = [(label, Store.unreachable)].
Proof.
  split; [reflexivity | split; [reflexivity |]].
  destruct (sdk_rejections_are_logged Sample.env Store.handler
              (CallSignIn "ivanov@example.org" "pw") Sample.db
              (e := Store.unreachable) eq_refl eq_refl)
    as [Ht [_ Hl]].
  split; [exact Ht | exact Hl].
Defined.

(** C3 as the specification states it fails for [addCadetByAdmin]: a
    [squad] that is [NaN] reaches the remote function as [null] and an
    [undefined] [avatar_url] does not reach it at all, so what the request
    carries is not the argument as it was given. *)
Lemma addCadetByAdmin_sends_null_for_NaN :
  map payload
    (requests (trace (run (scripted (Sample.script Sample.nothing
                                       (Fulfilled Awards.created)))
                        (exported Sample.env
                           (CallAddCadetByAdmin Awards.unnumbered)) 0))) =
    [[Awards.unnumbered_sent]] /\
  arguments (CallAddCadetByAdmin Awards.unnumbered) = [Awards.unnumbered] /\
  Awards.unnumbered_sent <> Awards.unnumbered /\
  (forall r rest,
     trace (run (scripted (Sample.script Sample.nothing
                             (Fulfilled Awards.created)))
              (exported Sample.env (CallAddCadetByAdmin Awards.unnumbered))
              0) = EvRequest r :: rest ->
     payload r =
       (literals (CallAddCadetByAdmin Awards.unnumbered) ++
        arguments (CallAddCadetByAdmin Awards.unnumbered))%list ->
     False).
Proof.
  split; [reflexivity | split; [reflexivity | split; [discriminate |]]].
  intros r rest Ht Hp. cbn in Ht. injection Ht as <- _.
  cbn in Hp. discriminate Hp.
Qed.

Lemma arguments_forwarded_first_witness :
  json_faithful Sample.newcomer = true /\
  map payload
    (requests (trace (run (scripted (Sample.script Sample.nothing
                                       (Fulfilled Awards.created)))
                        (exported Sample.env
                           (CallAddCadetByAdmin Sample.newcomer)) 0))) =
    [[Sample.newcomer]] /\
  exists r rest,
    trace (run (scripted (Sample.script Sample.nothing
                            (Fulfilled Awards.created)))
             (exported Sample.env (CallAddCadetByAdmin Sample.newcomer)) 0) =
      EvRequest r :: rest /\
    payload r = arguments (CallAddCadetByAdmin Sample.newcomer).
Proof.
  split; [reflexivity | split; [reflexivity |]].
  destruct (arguments_forwarded_first Sample.env
              (scripted (Sample.script Sample.nothing
                           (Fulfilled Awards.created)))
              (CallAddCadetByAdmin Sample.newcomer) 0)
    as [r [rest [Ht [_ Hadd]]]].
  exists r, rest. split; [exact Ht |].
  exact (proj2 (Hadd Sample.newcomer eq_refl) eq_refl).
Defined.
